(** * watchdog_scraper: the scrape session, its request filter, the
      obfuscation heuristic and the dispatcher's result gate

    A shallow embedding of [src/app/scraper/scraper_service.py] and of the
    result handling of [src/main.py].

    Python values are modelled as follows.
    - [str] is [string]; a slice [s[:n]] / [s[n:]] is [firstn] / [skipn] on
      the list of characters.
    - [int] is [Z].  The floats of [detect_obfuscation] are exact rationals
      ([Q]): [hex_count / sample_length] is a correctly rounded quotient of
      two small integers and is only ever compared with the literal [0.05],
      so for every script shorter than 2^50 characters the comparison on
      doubles and the comparison on rationals agree.
    - A call that may raise returns an [outcome]; the coroutine
      [scrape_website_async] is a state-and-error computation over its local
      variables, and every call into the rendering engine, the resolver or
      the proxy pool reads its outcome from a [World].
    - A [set] of URLs is a [gset string]. *)

From Stdlib Require Import ZArith QArith Qround List Ascii String Bool Lia.
From stdpp Require Import gmap strings.

Local Open Scope string_scope.
Local Open Scope Z_scope.

(** ** Exceptions and results *)

(** The exception classes the source distinguishes.  [CancelledError] and
    [BaseException] are not instances of [Exception] (Python 3.8 and later);
    [PlaywrightTimeoutError], [TargetClosedError], [ZeroDivisionError] and
    every [Exception msg] are. *)
Inductive exn : Type :=
  | CancelledError
  | PlaywrightTimeoutError (msg : string)
  | TargetClosedError (msg : string)
  | ZeroDivisionError
  | Exception (msg : string)
  | BaseException (msg : string).

Definition is_Exception (e : exn) : bool :=
  match e with
  | CancelledError | BaseException _ => false
  | _ => true
  end.

(** [str(e)] *)
Definition str_exn (e : exn) : string :=
  match e with
  | CancelledError => ""
  | PlaywrightTimeoutError msg => msg
  | TargetClosedError msg => msg
  | ZeroDivisionError => "division by zero"
  | Exception msg => msg
  | BaseException msg => msg
  end.

(** The outcome of a call: the value it returns or the exception it
    raises. *)
Inductive outcome (A : Type) : Type :=
  | Ok (a : A)
  | Raise (e : exn).
Arguments Ok {A} a.
Arguments Raise {A} e.

Definition obind {A B} (r : outcome A) (k : A -> outcome B) : outcome B :=
  match r with
  | Ok a => k a
  | Raise e => Raise e
  end.

Declare Scope outcome_scope.
Delimit Scope outcome_scope with outcome.
Notation "'try!' x ':=' r 'in' k" := (obind r (fun x => k))
  (at level 10, x name, r at level 100, k at level 200) : outcome_scope.

(** ** The obfuscation heuristic *)

Module Obfuscation.

Local Open Scope outcome_scope.

(** One character of the class [[0-9a-fA-F]]. *)
Definition is_hex_digit (c : ascii) : bool :=
  let n := nat_of_ascii c in
  ((48 <=? n) && (n <=? 57) || (97 <=? n) && (n <=? 102)
   || (65 <=? n) && (n <=? 70))%nat.

(** Length of the longest run of hexadecimal digits at the head of [s]. *)
Fixpoint hex_run (s : list ascii) : nat :=
  match s with
  | c :: r => if is_hex_digit c then S (hex_run r) else O
  | [] => O
  end.

(** [hex_pattern.match] anchored at the head of [s]: the length of the
    greedy match of [0x[0-9a-fA-F]+], if there is one. *)
Definition match_here (s : list ascii) : option nat :=
  match s with
  | c0 :: c1 :: r =>
      if Ascii.eqb c0 "0" && Ascii.eqb c1 "x" then
        match hex_run r with
        | O => None
        | S k => Some (2 + S k)%nat
        end
      else None
  | _ => None
  end.

(** [hex_pattern.finditer(s)]: the spans of the leftmost, non-overlapping
    matches.  [pos] is the index of the head of [s]; [skip] counts the
    characters of [s] still inside the previous match. *)
Fixpoint finditer_from (pos skip : nat) (s : list ascii) : list (nat * nat) :=
  match s with
  | [] => []
  | _ :: r =>
      match skip with
      | S k => finditer_from (S pos) k r
      | O =>
          match match_here s with
          | Some n => (pos, pos + n)%nat :: finditer_from (S pos) (n - 1) r
          | None => finditer_from (S pos) O r
          end
      end
  end.

Definition finditer (s : list ascii) : list (nat * nat) := finditer_from 0 0 s.

(** [a / b] on two ints. *)
Definition truediv (a b : Z) : outcome Q :=
  if b =? 0 then Raise ZeroDivisionError
  else Ok (inject_Z a / inject_Z b)%Q.

(** [x > y] on the densities. *)
Definition Qgtb (x y : Q) : bool := negb (Qle_bool x y).

(** [int(q)] truncates towards zero. *)
Definition py_int (q : Q) : Z :=
  if Qle_bool 0 q then Qfloor q else Qceiling q.

(** How one of the two [for match in ...] loops ends: by its [return], or
    by falling through with the running count. *)
Inductive loop_exit : Type :=
  | Returned (flag : bool)
  | Exhausted (hex_count : Z).

(** [for match in matches: hex_count += 1; if hex_count > threshold:
      density = hex_count / denom; return density > density_threshold] *)
Fixpoint count_matches (matches : list (nat * nat)) (hex_count threshold : Z)
    (denom : Z) (density_threshold : Q) : outcome loop_exit :=
  match matches with
  | [] => Ok (Exhausted hex_count)
  | _ :: rest =>
      let hex_count := hex_count + 1 in
      if threshold <? hex_count then
        try! density := truediv hex_count denom in
        Ok (Returned (Qgtb density density_threshold))
      else count_matches rest hex_count threshold denom density_threshold
  end.

(** The body of [detect_obfuscation].  The slices are taken at
    [sample_length] counted from the front, as Python does for the
    non-negative [sample_ratio] of the signature. *)
Definition detect_obfuscation_with (js_code : string) (threshold : Z)
    (density_threshold sample_ratio : Q) : outcome bool :=
  let code := list_ascii_of_string js_code in
  let code_length := Z.of_nat (List.length code) in
  if code_length =? 0 then Ok false
  else
    let sample_length := py_int (inject_Z code_length * sample_ratio)%Q in
    let sample_code := firstn (Z.to_nat sample_length) code in
    try! first := count_matches (finditer sample_code) 0 threshold
                    sample_length density_threshold in
    match first with
    | Returned flag => Ok flag
    | Exhausted hex_count =>
        try! density := truediv hex_count sample_length in
        if Qle_bool density density_threshold then Ok false
        else
          try! second := count_matches
                           (finditer (skipn (Z.to_nat sample_length) code))
                           hex_count threshold code_length density_threshold in
          match second with
          | Returned flag => Ok flag
          | Exhausted hex_count =>
              try! density := truediv hex_count code_length in
              Ok (Qgtb density density_threshold)
          end
    end.

(** The defaults of the signature: [threshold=5], [density_threshold=0.05],
    [sample_ratio=0.25]. *)
Definition detect_obfuscation (js_code : string) : outcome bool :=
  detect_obfuscation_with js_code 5 (5 # 100) (25 # 100).

(** The sampled prefix [js_code[:int(len(js_code) * 0.25)]] and the tokens
    the pattern finds in it. *)
Definition sample_length (js_code : string) : Z :=
  py_int (inject_Z (Z.of_nat (List.length (list_ascii_of_string js_code)))
          * (25 # 100))%Q.

Definition sample_code (js_code : string) : list ascii :=
  firstn (Z.to_nat (sample_length js_code)) (list_ascii_of_string js_code).

Definition prefix_tokens (js_code : string) : Z :=
  Z.of_nat (List.length (finditer (sample_code js_code))).

End Obfuscation.

(** ** The request filter *)

Module Filter.

(** What [handle_request] reads of a Playwright [Request]. *)
Record Request : Type := {
  url : string;
  resource_type : string
}.

(** What the handler asks of the route: [route.abort()] or
    [route.continue_()].  Either call may raise; [handle_request] catches
    and logs every such exception, so the decision is all that is left. *)
Inductive decision : Type := Abort | Continue.

Definition blocked_resource_types : list string :=
  ["image"; "stylesheet"; "font"; "media"; "document"].

Definition blocked_domains : list string :=
  ["ads"; "analytics"; "doubleclick"; "googletagmanager"; "adservice"].

(** [sub in s] on two strings. *)
Fixpoint contains (sub s : string) : bool :=
  String.prefix sub s
  || match s with
     | EmptyString => false
     | String _ rest => contains sub rest
     end.

(** The body of [handle_request]: the decision and the session's set of
    already requested resources afterwards.  Nothing is awaited between the
    membership test and [loaded_resources.add], so the two are one step. *)
Definition handle_request (request : Request) (loaded_resources : gset string)
    : decision * gset string :=
  if existsb (String.eqb (resource_type request)) blocked_resource_types then
    (Abort, loaded_resources)
  else if existsb (fun domain => contains domain (url request)) blocked_domains then
    (Abort, loaded_resources)
  else if bool_decide (url request ∈ loaded_resources) then
    (Abort, loaded_resources)
  else
    (Continue, {[url request]} ∪ loaded_resources).

(** The requests of one session, in the order their handlers run, against
    the one [loaded_resources] set the session created. *)
Fixpoint handle_requests (requests : list Request) (loaded_resources : gset string)
    : list decision * gset string :=
  match requests with
  | [] => ([], loaded_resources)
  | request :: rest =>
      let '(d, loaded_resources) := handle_request request loaded_resources in
      let '(ds, loaded_resources) := handle_requests rest loaded_resources in
      (d :: ds, loaded_resources)
  end.

(** A request that neither rule 1 (resource category) nor rule 2 (blocked
    substring) aborts. *)
Definition passes_blocklists (request : Request) : bool :=
  negb (existsb (String.eqb (resource_type request)) blocked_resource_types)
  && negb (existsb (fun domain => contains domain (url request)) blocked_domains).

End Filter.

(** ** Response capture *)

Module Capture.

(** What [capture_scripts_async] reads of a Playwright [Response]:
    [content_type] is the [content-type] header, [None] when the response
    has none (the source then reads [""]); [text] is the outcome of
    [await response.text()]. *)
Record Response : Type := {
  url : string;
  content_type : option string;
  status : Z;
  text : outcome string
}.

(** [capture_scripts_async(response, script_urls, script_contents)]: the
    exception that leaves the coroutine, if any, and the two lists
    afterwards.  Nothing is awaited between the two [append]s.  Both
    [except Exception] clauses only log. *)
Definition capture_scripts_async (response : Response)
    (script_urls script_contents : list string)
    : outcome unit * (list string * list string) :=
  if Filter.contains "javascript" (default "" (content_type response))
     && (status response =? 200)
  then
    match text response with
    | Ok js_code =>
        (Ok tt, ((script_urls ++ [url response])%list,
                 (script_contents ++ [js_code])%list))
    | Raise e =>
        if is_Exception e then (Ok tt, (script_urls, script_contents))
        else (Raise e, (script_urls, script_contents))
    end
  else (Ok tt, (script_urls, script_contents)).

(** The capture tasks of one session against its two lists, in the order
    in which the tasks get past [response.text()]: the outcome of each
    task and the lists in the end. *)
Fixpoint capture_all (responses : list Response)
    (script_urls script_contents : list string)
    : list (outcome unit) * (list string * list string) :=
  match responses with
  | [] => ([], (script_urls, script_contents))
  | response :: rest =>
      let '(o, (script_urls, script_contents)) :=
        capture_scripts_async response script_urls script_contents in
      let '(os, lists) := capture_all rest script_urls script_contents in
      (o :: os, lists)
  end.

(** The (URL, body) pair a response contributes: that of a response with
    [javascript] in its content type, status 200 and a body that could be
    read. *)
Definition captured_pair (response : Response) : option (string * string) :=
  if Filter.contains "javascript" (default "" (content_type response))
     && (status response =? 200)
  then
    match text response with
    | Ok js_code => Some (url response, js_code)
    | Raise _ => None
    end
  else None.

End Capture.

(** ** The scrape session *)

Module Session.

Export Obfuscation.

(** The values of the [status_code] key. *)
Inductive status : Type :=
  | DNS_Error | Timeout | Cancelled | Failed | complete | loading.

Definition status_string (s : status) : string :=
  match s with
  | DNS_Error => "DNS Error"
  | Timeout => "Timeout"
  | Cancelled => "Cancelled"
  | Failed => "Failed"
  | complete => "complete"
  | loading => "loading"
  end.

(** The [script_paths] key holds [str(js_filepaths)] on every path but the
    cancelled one, which holds the list [[]] itself. *)
Inductive script_paths_value : Type :=
  | str_of (js_filepaths : list string)
  | list_of (paths : list string).

(** The dict a session returns.  [redirect_domain] is [None] for [False];
    [error] is [None] where the dict has no such key. *)
Record ScrapeResult : Type := {
  domain : string;
  status_code : status;
  ip : option (list string);
  obfuscation : bool;
  script_paths : script_paths_value;
  redirect_domain : option string;
  html_content : string;
  error : option string
}.

(** The calls a session makes into its collaborators, in the order made.
    [time.time()] and the logger are left out; [EvUpdateLoadTime] keeps the
    proxy and the success flag of [proxy_manager.update_load_time] and
    drops the elapsed time. *)
Inductive event : Type :=
  | EvGetProxy
  | EvDnsResolve (domain : string)
  | EvPlaywrightEnter
  | EvLaunch
  | EvNewContext (proxy_address : string)
  | EvNewPage
  | EvRoute
  | EvOnResponse
  | EvGoto (url : string)
  | EvContent
  | EvWaitForSelector (timeout : Z)
  | EvSleep
  | EvGather
  | EvPlaywrightExit
  | EvUpdateLoadTime (proxy : string) (success : bool)
  | EvContextClose
  | EvPageClose
  | EvBrowserClose.

(** What [resolver.resolve(domain, 'A')] does. *)
Inductive dns_answer : Type :=
  | Answer (addresses : list string)
  | NXDOMAIN
  | NoAnswer
  | LookupTimeout
  | ResolverError (e : exn).

(** Everything outside the repository that a session talks to: the URL
    parser, the proxy pool, the resolver and the rendering engine.  A call
    made once has one outcome; [page.content()] and [asyncio.sleep], made
    repeatedly, answer by the calls made so far. *)
Record World : Type := {
  urlparse_netloc : string -> string;
  urlparse_path : string -> string;
  get_proxy : string;
  resolver_resolve : string -> dns_answer;
  async_playwright_enter : outcome unit;
  chromium_launch : outcome unit;
  browser_new_context : outcome unit;
  context_new_page : outcome unit;
  page_route : outcome unit;
  page_on : outcome unit;
  page_goto : string -> outcome unit;
  page_content : list event -> outcome string;
  page_wait_for_selector : outcome unit;
  page_url : string;
  asyncio_sleep : list event -> outcome unit;
  asyncio_gather : outcome (list (string * string));
  async_playwright_exit : outcome unit;
  update_load_time : outcome unit;
  context_close : outcome unit;
  page_close : outcome unit;
  browser_close : outcome unit
}.

(** The keyword arguments of [scrape_website_async]. *)
Record Args : Type := {
  max_wait_time : Z;
  check_interval : Z;
  no_change_limit : Z;
  change_limit : Z
}.

Definition default_args : Args :=
  {| max_wait_time := 12000; check_interval := 400;
     no_change_limit := 3; change_limit := 4 |}.

(** The local variables the [try] statement assigns, and the calls made so
    far.  [browser], [context] and [page] are [false] for [None]. *)
Module Vars.

Record locals : Type := mk_locals {
  proxy_success : bool;
  redirect_domain : option string;
  has_obfuscation : bool;
  js_filepaths : list string;
  script_urls : list string;
  script_contents : list string;
  html_content : string;
  status_code : status;
  browser : bool;
  context : bool;
  page : bool;
  unchanged_iterations : Z;
  changed_iterations : Z;
  total_iterations : Z;
  previous_content : option string;
  current_content : string;
  trace : list event
}.

Definition set_proxy_success (x : bool) (st : locals) : locals :=
  mk_locals
    x (redirect_domain st) (has_obfuscation st) (js_filepaths st)
    (script_urls st) (script_contents st) (html_content st) (status_code st)
    (browser st) (context st) (page st) (unchanged_iterations st)
    (changed_iterations st) (total_iterations st) (previous_content st)
    (current_content st) (trace st).

Definition set_redirect_domain (x : option string) (st : locals) : locals :=
  mk_locals
    (proxy_success st) x (has_obfuscation st) (js_filepaths st)
    (script_urls st) (script_contents st) (html_content st) (status_code st)
    (browser st) (context st) (page st) (unchanged_iterations st)
    (changed_iterations st) (total_iterations st) (previous_content st)
    (current_content st) (trace st).

Definition set_has_obfuscation (x : bool) (st : locals) : locals :=
  mk_locals
    (proxy_success st) (redirect_domain st) x (js_filepaths st)
    (script_urls st) (script_contents st) (html_content st) (status_code st)
    (browser st) (context st) (page st) (unchanged_iterations st)
    (changed_iterations st) (total_iterations st) (previous_content st)
    (current_content st) (trace st).

Definition set_js_filepaths (x : list string) (st : locals) : locals :=
  mk_locals
    (proxy_success st) (redirect_domain st) (has_obfuscation st) x
    (script_urls st) (script_contents st) (html_content st) (status_code st)
    (browser st) (context st) (page st) (unchanged_iterations st)
    (changed_iterations st) (total_iterations st) (previous_content st)
    (current_content st) (trace st).

Definition set_script_urls (x : list string) (st : locals) : locals :=
  mk_locals
    (proxy_success st) (redirect_domain st) (has_obfuscation st)
    (js_filepaths st) x (script_contents st) (html_content st)
    (status_code st) (browser st) (context st) (page st)
    (unchanged_iterations st) (changed_iterations st) (total_iterations st)
    (previous_content st) (current_content st) (trace st).

Definition set_script_contents (x : list string) (st : locals) : locals :=
  mk_locals
    (proxy_success st) (redirect_domain st) (has_obfuscation st)
    (js_filepaths st) (script_urls st) x (html_content st) (status_code st)
    (browser st) (context st) (page st) (unchanged_iterations st)
    (changed_iterations st) (total_iterations st) (previous_content st)
    (current_content st) (trace st).

Definition set_html_content (x : string) (st : locals) : locals :=
  mk_locals
    (proxy_success st) (redirect_domain st) (has_obfuscation st)
    (js_filepaths st) (script_urls st) (script_contents st) x
    (status_code st) (browser st) (context st) (page st)
    (unchanged_iterations st) (changed_iterations st) (total_iterations st)
    (previous_content st) (current_content st) (trace st).

Definition set_status_code (x : status) (st : locals) : locals :=
  mk_locals
    (proxy_success st) (redirect_domain st) (has_obfuscation st)
    (js_filepaths st) (script_urls st) (script_contents st) (html_content st)
    x (browser st) (context st) (page st) (unchanged_iterations st)
    (changed_iterations st) (total_iterations st) (previous_content st)
    (current_content st) (trace st).

Definition set_browser (x : bool) (st : locals) : locals :=
  mk_locals
    (proxy_success st) (redirect_domain st) (has_obfuscation st)
    (js_filepaths st) (script_urls st) (script_contents st) (html_content st)
    (status_code st) x (context st) (page st) (unchanged_iterations st)
    (changed_iterations st) (total_iterations st) (previous_content st)
    (current_content st) (trace st).

Definition set_context (x : bool) (st : locals) : locals :=
  mk_locals
    (proxy_success st) (redirect_domain st) (has_obfuscation st)
    (js_filepaths st) (script_urls st) (script_contents st) (html_content st)
    (status_code st) (browser st) x (page st) (unchanged_iterations st)
    (changed_iterations st) (total_iterations st) (previous_content st)
    (current_content st) (trace st).

Definition set_page (x : bool) (st : locals) : locals :=
  mk_locals
    (proxy_success st) (redirect_domain st) (has_obfuscation st)
    (js_filepaths st) (script_urls st) (script_contents st) (html_content st)
    (status_code st) (browser st) (context st) x (unchanged_iterations st)
    (changed_iterations st) (total_iterations st) (previous_content st)
    (current_content st) (trace st).

Definition set_unchanged_iterations (x : Z) (st : locals) : locals :=
  mk_locals
    (proxy_success st) (redirect_domain st) (has_obfuscation st)
    (js_filepaths st) (script_urls st) (script_contents st) (html_content st)
    (status_code st) (browser st) (context st) (page st) x
    (changed_iterations st) (total_iterations st) (previous_content st)
    (current_content st) (trace st).

Definition set_changed_iterations (x : Z) (st : locals) : locals :=
  mk_locals
    (proxy_success st) (redirect_domain st) (has_obfuscation st)
    (js_filepaths st) (script_urls st) (script_contents st) (html_content st)
    (status_code st) (browser st) (context st) (page st)
    (unchanged_iterations st) x (total_iterations st) (previous_content st)
    (current_content st) (trace st).

Definition set_total_iterations (x : Z) (st : locals) : locals :=
  mk_locals
    (proxy_success st) (redirect_domain st) (has_obfuscation st)
    (js_filepaths st) (script_urls st) (script_contents st) (html_content st)
    (status_code st) (browser st) (context st) (page st)
    (unchanged_iterations st) (changed_iterations st) x (previous_content st)
    (current_content st) (trace st).

Definition set_previous_content (x : option string) (st : locals) : locals :=
  mk_locals
    (proxy_success st) (redirect_domain st) (has_obfuscation st)
    (js_filepaths st) (script_urls st) (script_contents st) (html_content st)
    (status_code st) (browser st) (context st) (page st)
    (unchanged_iterations st) (changed_iterations st) (total_iterations st) x
    (current_content st) (trace st).

Definition set_current_content (x : string) (st : locals) : locals :=
  mk_locals
    (proxy_success st) (redirect_domain st) (has_obfuscation st)
    (js_filepaths st) (script_urls st) (script_contents st) (html_content st)
    (status_code st) (browser st) (context st) (page st)
    (unchanged_iterations st) (changed_iterations st) (total_iterations st)
    (previous_content st) x (trace st).

Definition set_trace (x : list event) (st : locals) : locals :=
  mk_locals
    (proxy_success st) (redirect_domain st) (has_obfuscation st)
    (js_filepaths st) (script_urls st) (script_contents st) (html_content st)
    (status_code st) (browser st) (context st) (page st)
    (unchanged_iterations st) (changed_iterations st) (total_iterations st)
    (previous_content st) (current_content st) x.

Definition initial : locals :=
  {| proxy_success := true; redirect_domain := None; has_obfuscation := false;
     js_filepaths := []; script_urls := []; script_contents := [];
     html_content := ""; status_code := Failed;
     browser := false; context := false; page := false;
     unchanged_iterations := 0; changed_iterations := 0; total_iterations := 0;
     previous_content := None; current_content := ""; trace := [] |}.

End Vars.

Abbreviation locals := Vars.locals.

(** *** The monad of the coroutine

    A computation either runs out of loop budget ([None]) or ends with an
    outcome and the locals it leaves. *)
Definition M (A : Type) : Type := locals -> option (outcome A * locals).

Definition ret {A} (a : A) : M A := fun st => Some (Ok a, st).

Definition raise {A} (e : exn) : M A := fun st => Some (Raise e, st).

Definition bind {A B} (m : M A) (k : A -> M B) : M B :=
  fun st =>
    match m st with
    | Some (Ok a, st') => k a st'
    | Some (Raise e, st') => Some (Raise e, st')
    | None => None
    end.

Declare Scope session_scope.
Delimit Scope session_scope with session.
Notation "'run!' x ':=' m 'in' k" := (bind m (fun x => k))
  (at level 10, x name, m at level 100, k at level 200) : session_scope.
Notation "m ;; k" := (bind m (fun _ => k))
  (at level 100, k at level 200, right associativity) : session_scope.
Local Open Scope session_scope.

Definition gets {A} (f : locals -> A) : M A := fun st => Some (Ok (f st), st).

Definition modify (f : locals -> locals) : M unit := fun st => Some (Ok tt, f st).

Definition lift {A} (o : outcome A) : M A := fun st => Some (o, st).

(** The locals after one more call. *)
Definition log (ev : event) (st : locals) : locals :=
  Vars.set_trace (Vars.trace st ++ [ev])%list st.

Definition emit (ev : event) : M unit := modify (log ev).

(** A call with a fixed outcome, and one that answers by the history. *)
Definition call {A} (ev : event) (o : outcome A) : M A := emit ev ;; lift o.

Definition call_at {A} (ev : event) (o : list event -> outcome A) : M A :=
  run! history := gets Vars.trace in emit ev ;; lift (o history).

(** [try: m  except ...: h] where [h e] is [None] for an exception no clause
    matches. *)
Definition try_except {A} (m : M A) (h : exn -> option (M A)) : M A :=
  fun st =>
    match m st with
    | Some (Raise e, st') =>
        match h e with
        | Some k => k st'
        | None => Some (Raise e, st')
        end
    | r => r
    end.

(** [try: m  finally: fin].  An exception of [fin] replaces the outcome of
    [m], whether that was a value, a pending [return] or an exception. *)
Definition try_finally {A} (m : M A) (fin : M unit) : M A :=
  fun st =>
    match m st with
    | Some (o, st') =>
        match fin st' with
        | Some (Ok _, st'') => Some (o, st'')
        | Some (Raise e, st'') => Some (Raise e, st'')
        | None => None
        end
    | None => None
    end.

(** [async with enter as _: body], whose [__aexit__] does not suppress the
    exception of the body. *)
Definition async_with {A} (enter exit : M unit) (body : M A) : M A :=
  enter ;; try_finally body exit.

(** *** The helpers of the module *)

Definition dns_resolve (w : World) (domain : string) : outcome (option (list string)) :=
  match resolver_resolve w domain with
  | Answer addresses => Ok (Some addresses)
  | NXDOMAIN | NoAnswer | LookupTimeout => Ok None
  | ResolverError e => Raise e
  end.

(** [not resolved_ip] *)
Definition not_ips (resolved_ip : option (list string)) : bool :=
  match resolved_ip with
  | None | Some [] => true
  | Some (_ :: _) => false
  end.

(** The resolver's answers for which [dns_resolve] returns [None] or an
    empty list. *)
Definition no_addresses (answer : dns_answer) : bool :=
  match answer with
  | Answer [] | NXDOMAIN | NoAnswer | LookupTimeout => true
  | _ => false
  end.

Definition is_redirected_to_different_domain (w : World) (initial_url final_url : string)
    : option string :=
  let initial_domain := urlparse_netloc w initial_url in
  let final_domain := urlparse_netloc w final_url in
  if String.eqb initial_domain final_domain then None else Some final_domain.

(** [if not url.startswith("http"): url = "https://" + url] *)
Definition with_scheme (url : string) : string :=
  if String.prefix "http" url then url else "https://" +:+ url.

(** *** The convergence loop *)

(** One pass through the body of the [while]; [true] to test the condition
    again, [false] after a [break]. *)
Definition poll_body (w : World) (a : Args) : M bool :=
  modify (Vars.set_status_code loading) ;;
  modify (fun st => Vars.set_total_iterations (Vars.total_iterations st + 1) st) ;;
  run! content := call_at EvContent (page_content w) in
  modify (Vars.set_current_content content) ;;
  run! previous := gets Vars.previous_content in
  run! broke :=
    (if match previous with
        | Some p => negb (String.eqb content p)
        | None => true
        end
     then
       modify (Vars.set_previous_content (Some content)) ;;
       modify (Vars.set_unchanged_iterations 0) ;;
       modify (fun st => Vars.set_changed_iterations (Vars.changed_iterations st + 1) st) ;;
       run! changed := gets Vars.changed_iterations in
       ret (change_limit a <=? changed)
     else
       modify (fun st => Vars.set_unchanged_iterations (Vars.unchanged_iterations st + 1) st) ;;
       modify (Vars.set_changed_iterations 0) ;;
       ret false) in
  if broke : bool then ret false
  else
    run! unchanged := gets Vars.unchanged_iterations in
    if no_change_limit a <=? unchanged then ret false
    else
      call_at EvSleep (asyncio_sleep w) ;;
      ret true.

(** [while total_iterations < (unchanged_iterations + changed_iterations)] *)
Fixpoint poll_loop (w : World) (a : Args) (fuel : nat) : M unit :=
  fun st =>
    if Vars.total_iterations st
       <? Vars.unchanged_iterations st + Vars.changed_iterations st
    then
      match fuel with
      | O => None
      | S fuel' =>
          (run! again := poll_body w a in
           if again : bool then poll_loop w a fuel' else ret tt) st
      end
    else ret tt st.

(** [for script in script_contents: if detect_obfuscation(script):
      has_obfuscation = True; break] *)
Fixpoint scan_scripts (script_contents : list string) : M unit :=
  match script_contents with
  | [] => ret tt
  | script :: rest =>
      run! flag := lift (detect_obfuscation script) in
      if flag : bool then modify (Vars.set_has_obfuscation true)
      else scan_scripts rest
  end.

(** *** The [try] statement *)

(** The suite of the [try], in the order of the source: open the page and
    install the two observers, navigate and take the first snapshot, poll,
    then collect the scripts. *)
Definition open_page (w : World) : M unit :=
  call EvLaunch (chromium_launch w) ;;
  modify (Vars.set_browser true) ;;
  call (EvNewContext ("http://" +:+ get_proxy w)) (browser_new_context w) ;;
  modify (Vars.set_context true) ;;
  call EvNewPage (context_new_page w) ;;
  modify (Vars.set_page true) ;;
  call EvRoute (page_route w) ;;
  call EvOnResponse (page_on w).

Definition navigate (w : World) (a : Args) (url : string) : M unit :=
  call (EvGoto url) (page_goto w url) ;;
  run! html := call_at EvContent (page_content w) in
  modify (Vars.set_html_content html) ;;
  call (EvWaitForSelector (max_wait_time a)) (page_wait_for_selector w) ;;
  modify (Vars.set_redirect_domain
            (is_redirected_to_different_domain w url (page_url w))).

Definition content_poll (w : World) (a : Args) (fuel : nat) : M unit :=
  modify (Vars.set_unchanged_iterations 0) ;;
  modify (Vars.set_changed_iterations 0) ;;
  modify (Vars.set_total_iterations 0) ;;
  modify (Vars.set_previous_content None) ;;
  modify (fun st => Vars.set_current_content (Vars.html_content st) st) ;;
  poll_loop w a fuel.

(** [asyncio.gather] over [script_capture_tasks] returns once every
    [capture_scripts_async] task has appended its (URL, body) pair; the
    pairs are the world's [asyncio_gather]. *)
Definition collect_scripts (w : World) : M unit :=
  modify (Vars.set_status_code complete) ;;
  modify (fun st => Vars.set_html_content (Vars.current_content st) st) ;;
  run! captured := call EvGather (asyncio_gather w) in
  modify (Vars.set_script_urls (map fst captured)) ;;
  modify (Vars.set_script_contents (map snd captured)) ;;
  modify (fun st => Vars.set_js_filepaths
                      (map (urlparse_path w) (Vars.script_urls st)) st) ;;
  run! script_contents := gets Vars.script_contents in
  scan_scripts script_contents.

Definition try_body (w : World) (a : Args) (fuel : nat) (url : string) : M unit :=
  async_with
    (call EvPlaywrightEnter (async_playwright_enter w))
    (call EvPlaywrightExit (async_playwright_exit w))
    (open_page w ;;
     navigate w a url ;;
     content_poll w a fuel ;;
     collect_scripts w).

(** The dicts of the three [except] clauses and of the final [return]. *)
Definition cancelled_result (url domain : string) : ScrapeResult :=
  {| domain := url; status_code := Cancelled; ip := None;
     obfuscation := false; script_paths := list_of [];
     redirect_domain := None; html_content := "";
     error := Some ("Task was cancelled for " +:+ domain) |}.

Definition timeout_result (url : string) (resolved_ip : option (list string))
    (st : locals) : ScrapeResult :=
  {| domain := url; status_code := Timeout; ip := resolved_ip;
     obfuscation := Vars.has_obfuscation st;
     script_paths := str_of (Vars.js_filepaths st);
     redirect_domain := Vars.redirect_domain st;
     html_content := Vars.html_content st;
     error := Some "Timeout occurred." |}.

Definition failed_result (url : string) (resolved_ip : option (list string))
    (e : exn) (st : locals) : ScrapeResult :=
  {| domain := url; status_code := Failed; ip := resolved_ip;
     obfuscation := Vars.has_obfuscation st;
     script_paths := str_of (Vars.js_filepaths st);
     redirect_domain := Vars.redirect_domain st;
     html_content := Vars.html_content st;
     error := Some (str_exn e) |}.

Definition final_result (url : string) (resolved_ip : option (list string))
    (st : locals) : ScrapeResult :=
  {| domain := url; status_code := Vars.status_code st; ip := resolved_ip;
     obfuscation := Vars.has_obfuscation st;
     script_paths := str_of (Vars.js_filepaths st);
     redirect_domain := Vars.redirect_domain st;
     html_content := Vars.html_content st;
     error := None |}.

Definition dns_error_result (domain : string) : ScrapeResult :=
  {| domain := domain; status_code := DNS_Error; ip := None;
     obfuscation := false; script_paths := str_of [];
     redirect_domain := None; html_content := "";
     error := Some ("DNS resolution failed for " +:+ domain) |}.

(** [r] is the dict of one of the three [except] clauses. *)
Definition from_except_clause (url domain : string)
    (resolved_ip : option (list string)) (r : ScrapeResult) : Prop :=
  r = cancelled_result url domain
  \/ (exists st, r = timeout_result url resolved_ip st)
  \/ (exists e st, r = failed_result url resolved_ip e st).

(** The [except] clauses, each ending in a [return]: [Some r] is the
    pending return value. *)
Definition handlers (url domain : string) (resolved_ip : option (list string))
    (e : exn) : option (M (option ScrapeResult)) :=
  match e with
  | CancelledError => Some (ret (Some (cancelled_result url domain)))
  | PlaywrightTimeoutError _ =>
      Some (run! st := gets id in ret (Some (timeout_result url resolved_ip st)))
  | BaseException _ => None
  | _ =>
      Some (modify (Vars.set_proxy_success false) ;;
            run! st := gets id in ret (Some (failed_result url resolved_ip e st)))
  end.

(** The [finally] clause: the proxy feedback, then the three closes, of
    which only the first is guarded. *)
Definition teardown (w : World) : M unit :=
  try_except
    (run! context := gets Vars.context in
     if context : bool then call EvContextClose (context_close w) else ret tt)
    (fun e => if is_Exception e then Some (ret tt) else None) ;;
  run! page := gets Vars.page in
  (if page : bool then call EvPageClose (page_close w) else ret tt) ;;
  run! browser := gets Vars.browser in
  (if browser : bool then call EvBrowserClose (browser_close w) else ret tt).

Definition finalizer (w : World) : M unit :=
  run! proxy_success := gets Vars.proxy_success in
  call (EvUpdateLoadTime (get_proxy w) proxy_success) (update_load_time w) ;;
  teardown w.

(** The whole [try ... except ... finally] statement: [Some r] when an
    [except] clause returned [r], [None] when control falls through to the
    statement after it. *)
Definition try_statement (w : World) (a : Args) (fuel : nat) (url domain : string)
    (resolved_ip : option (list string)) : M (option ScrapeResult) :=
  try_finally
    (try_except (try_body w a fuel url ;; ret None)
                (handlers url domain resolved_ip))
    (finalizer w).

(** *** [scrape_website_async] *)

(** The coroutine from the DNS lookup on.  The statements in front of the
    lookup are taken to return: [proxy_manager.get_proxy()] gives a proxy
    and [urlparse(url)] a parse.  An input that [urlparse] rejects with a
    [ValueError] ends the call there, before the lookup, and is not a run
    of this definition. *)
Definition scrape (w : World) (a : Args) (fuel : nat) (url : string) : M ScrapeResult :=
  let url := with_scheme url in
  emit EvGetProxy ;;
  let domain := urlparse_netloc w url in
  run! resolved_ip := call (EvDnsResolve domain) (dns_resolve w domain) in
  if not_ips resolved_ip then ret (dns_error_result domain)
  else
    run! returned := try_statement w a fuel url domain resolved_ip in
    match returned with
    | Some r => ret r
    | None => run! st := gets id in ret (final_result url resolved_ip st)
    end.

Definition scrape_website_async_with (w : World) (a : Args) (fuel : nat) (url : string)
    : option (outcome ScrapeResult * locals) :=
  scrape w a fuel url Vars.initial.

(** The call [scrape_website_async(url)] of [main.py]. *)
Definition scrape_website_async (w : World) (fuel : nat) (url : string)
    : option (outcome ScrapeResult * locals) :=
  scrape_website_async_with w default_args fuel url.

(** How often the session called [proxy_manager.update_load_time]. *)
Definition is_update_load_time (ev : event) : bool :=
  match ev with
  | EvUpdateLoadTime _ _ => true
  | _ => false
  end.

Definition feedback_calls (events : list event) : nat :=
  List.length (List.filter is_update_load_time events).

(** Whether the session opened a browser, a context or a page. *)
Definition is_browser_work (ev : event) : bool :=
  match ev with
  | EvPlaywrightEnter | EvLaunch | EvNewContext _ | EvNewPage => true
  | _ => false
  end.

(** How often the session took a snapshot with [page.content()], and how
    often it slept between two snapshots. *)
Definition is_content (ev : event) : bool :=
  match ev with
  | EvContent => true
  | _ => false
  end.

Definition snapshots (events : list event) : nat :=
  List.length (List.filter is_content events).

Definition is_sleep (ev : event) : bool :=
  match ev with
  | EvSleep => true
  | _ => false
  end.

Definition sleeps (events : list event) : nat :=
  List.length (List.filter is_sleep events).

Definition feedback_view (st : locals) : nat := feedback_calls (Vars.trace st).

(** The locals after the five assignments in front of the [while]. *)
Definition poll_entry (st : locals) : locals :=
  Vars.set_current_content (Vars.html_content st)
    (Vars.set_previous_content None
       (Vars.set_total_iterations 0
          (Vars.set_changed_iterations 0
             (Vars.set_unchanged_iterations 0 st)))).

(** What the polling loop can change of a session: the iteration count,
    the HTML, the status, and the numbers of snapshots and sleeps. *)
Definition poll_view (st : locals) : Z * string * status * nat * nat :=
  (Vars.total_iterations st, Vars.html_content st, Vars.status_code st,
   snapshots (Vars.trace st), sleeps (Vars.trace st)).

(** [m] ends from every state, with an outcome, and leaves the observation
    [f] of the locals as it found it. *)
Definition preserves {T A : Type} (f : locals -> T) (m : M A) : Prop :=
  forall st, exists o st', m st = Some (o, st') /\ f st' = f st.

(** The calls up to the first [page.content()] of a session that gets
    there. *)
Definition history_before_snapshot (w : World) (url : string) : list event :=
  [EvGetProxy; EvDnsResolve (urlparse_netloc w url); EvPlaywrightEnter;
   EvLaunch; EvNewContext ("http://" +:+ get_proxy w); EvNewPage; EvRoute;
   EvOnResponse; EvGoto url].

(** The session gets past DNS, opens its page, navigates, takes the first
    snapshot [html] and sees the [body] selector: it reaches the polling
    loop. *)
Definition reaches_content_poll (w : World) (url html : string) : Prop :=
  let url := with_scheme url in
  (exists ip ips, resolver_resolve w (urlparse_netloc w url) = Answer (ip :: ips))
  /\ async_playwright_enter w = Ok tt
  /\ chromium_launch w = Ok tt
  /\ browser_new_context w = Ok tt
  /\ context_new_page w = Ok tt
  /\ page_route w = Ok tt
  /\ page_on w = Ok tt
  /\ page_goto w url = Ok tt
  /\ page_content w (history_before_snapshot w url) = Ok html
  /\ page_wait_for_selector w = Ok tt.

(** *** Further vocabulary *)

(** The calls of [update_load_time] among the calls of a session. *)
Definition feedback_events (events : list event) : list event :=
  List.filter is_update_load_time events.

(** The success flag the source reports for a result: [proxy_success] is
    assigned [False] in the generic [except] clause only. *)
Definition reports_success (r : ScrapeResult) : bool :=
  match status_code r with
  | Failed => false
  | _ => true
  end.

Definition flag_view (st : locals) : bool * list event :=
  (Vars.proxy_success st, feedback_events (Vars.trace st)).

(** The variables the final [return] reads. *)
Definition result_view (st : locals)
    : bool * list string * option string * string * status :=
  (Vars.has_obfuscation st, Vars.js_filepaths st, Vars.redirect_domain st,
   Vars.html_content st, Vars.status_code st).

(** The value of [has_obfuscation] after the [for] loop over the captured
    scripts, entered with [False]: the loop stops at the first positive
    script, and at the first script on which [detect_obfuscation] raises. *)
Fixpoint scan_flag (script_contents : list string) : outcome bool :=
  match script_contents with
  | [] => Ok false
  | script :: rest =>
      match detect_obfuscation script with
      | Ok true => Ok true
      | Ok false => scan_flag rest
      | Raise e => Raise e
      end
  end.

(** The three closes among the calls of a session. *)
Definition is_close (ev : event) : bool :=
  match ev with
  | EvContextClose | EvPageClose | EvBrowserClose => true
  | _ => false
  end.

Definition close_events (events : list event) : list event :=
  List.filter is_close events.

Definition close_view (st : locals) : list event := close_events (Vars.trace st).

(** The [finally] clause meets no failure it does not tolerate: the proxy
    feedback, [page.close()] and [browser.close()] return, and
    [context.close()] returns or raises an [Exception]. *)
Definition teardown_quiet (w : World) : Prop :=
  update_load_time w = Ok tt
  /\ (forall e, context_close w = Raise e -> is_Exception e = true)
  /\ page_close w = Ok tt
  /\ browser_close w = Ok tt.

(** The session gets past DNS, opens its page, navigates and takes the
    first snapshot [html]. *)
Definition takes_first_snapshot (w : World) (url html : string) : Prop :=
  let url := with_scheme url in
  (exists ip ips, resolver_resolve w (urlparse_netloc w url) = Answer (ip :: ips))
  /\ async_playwright_enter w = Ok tt
  /\ chromium_launch w = Ok tt
  /\ browser_new_context w = Ok tt
  /\ context_new_page w = Ok tt
  /\ page_route w = Ok tt
  /\ page_on w = Ok tt
  /\ page_goto w url = Ok tt
  /\ page_content w (history_before_snapshot w url) = Ok html.

End Session.

(** ** The dispatcher's handling of a session's result *)

Module Dispatcher.

Import Session.

Section Dispatch.

(** [app.processing.data_builder.from_scraper_to_parsed_data], the
    worker's identity and [producer.send] are collaborators of
    [main.py].  The parsed record is a dict, here with its values
    rendered as strings. *)
Variable from_scraper_to_parsed_data : ScrapeResult -> outcome (gmap string string).
Variable client_name : string.
Variable producer_send : gmap string string -> outcome unit.

(** [except Exception: ... return None] *)
Definition swallow {A} (o : outcome (option A)) : outcome (option A) :=
  match o with
  | Raise e => if is_Exception e then Ok None else Raise e
  | r => r
  end.

(** The body of [process_scrape_task] from the outcome of the awaited
    [scrape_website_async(domain)] on. *)
Definition process_scraped (scraped : outcome ScrapeResult)
    : outcome (option (gmap string string)) :=
  swallow
    match scraped with
    | Raise e => Raise e
    | Ok scraped_data =>
        let html_content := html_content scraped_data in
        if String.eqb html_content "" then Ok None
        else
          match from_scraper_to_parsed_data scraped_data with
          | Ok analyzed_data => Ok (Some analyzed_data)
          | Raise e => Raise e
          end
    end.

Definition process_scrape_task (w : World) (fuel : nat) (domain : string)
    : option (outcome (option (gmap string string))) :=
  match scrape_website_async w fuel domain with
  | Some (scraped, _) => Some (process_scraped scraped)
  | None => None
  end.

(** [if result:] on [None] or a dict. *)
Definition truthy (result : option (gmap string string)) : bool :=
  match result with
  | Some d => negb (bool_decide (d = ∅))
  | None => false
  end.

(** The suite of [process_domain] under the semaphore, from the outcome
    of [process_scrape_task] on: the exception that escapes, if any, and
    the records published to the result topic, appended to [sink]. *)
Definition publish (task : outcome (option (gmap string string)))
    (sink : list (gmap string string)) : outcome unit * list (gmap string string) :=
  match task with
  | Ok (Some result) =>
      if truthy (Some result) then
        let result := <["processor" := client_name]> result in
        match producer_send result with
        | Ok _ => (Ok tt, (sink ++ [result])%list)
        | Raise CancelledError => (Ok tt, sink)
        | Raise e => if is_Exception e then (Ok tt, sink) else (Raise e, sink)
        end
      else (Ok tt, sink)
  | Ok None => (Ok tt, sink)
  | Raise CancelledError => (Ok tt, sink)
  | Raise e => if is_Exception e then (Ok tt, sink) else (Raise e, sink)
  end.

Definition process_domain (w : World) (fuel : nat) (domain : string)
    (sink : list (gmap string string))
    : option (outcome unit * list (gmap string string)) :=
  match process_scrape_task w fuel domain with
  | Some task => Some (publish task sink)
  | None => None
  end.

(** [process_domain(domain)] as a whole.  [async with semaphore:] encloses
    the [try] statement, which is [process_domain] above: the wait for a
    slot is an await outside the [try], so what it raises, a
    [CancelledError] of a task cancelled while it waits in particular,
    leaves the coroutine with nothing done.  Releasing the slot raises
    nothing and passes on what the suite raised. *)
Definition process_domain_with_semaphore (semaphore_acquire : outcome unit)
    (w : World) (fuel : nat) (domain : string) (sink : list (gmap string string))
    : option (outcome unit * list (gmap string string)) :=
  match semaphore_acquire with
  | Ok _ => process_domain w fuel domain sink
  | Raise e => Some (Raise e, sink)
  end.

End Dispatch.

End Dispatcher.

(** ** Sample inputs *)

Module Samples.

Import Session.

(** [n] copies of [s], and [n] blanks. *)
Definition copies (n : nat) (s : string) : string := String.concat "" (repeat s n).

Definition blanks (n : nat) : string := string_of_list_ascii (repeat " "%char n).

(** 800 characters: eleven hexadecimal literals at the start of the first
    200, blanks after them. *)
Definition eleven_literals : string := copies 11 "0x1 " +:+ blanks 756.

(** 96 characters: six hexadecimal literals within the first 24. *)
Definition six_literals : string := "0x1 0x2 0x3 0xa 0xb 0xc" +:+ blanks 73.

(** A stand-in for [urlparse(u).netloc] on URLs of the form
    [scheme://host/path]: what lies between [://] and the next [/]. *)
Definition after_scheme (u : string) : string :=
  match String.index 0 "://" u with
  | Some i => String.substring (i + 3) (String.length u - (i + 3)) u
  | None => ""
  end.

Definition netloc (u : string) : string :=
  let rest := after_scheme u in
  match String.index 0 "/" rest with
  | Some i => String.substring 0 i rest
  | None => rest
  end.

Definition path (u : string) : string :=
  let rest := after_scheme u in
  match String.index 0 "/" rest with
  | Some i => String.substring i (String.length rest - i) rest
  | None => ""
  end.

(** A world in which every call succeeds: the domain resolves, the page is
    stable from the first snapshot on and serves one plain script. *)
Definition calm : World :=
  {| urlparse_netloc := netloc; urlparse_path := path;
     get_proxy := "10.0.0.1:8080";
     resolver_resolve := fun _ => Answer ["93.184.216.34"];
     async_playwright_enter := Ok tt; chromium_launch := Ok tt;
     browser_new_context := Ok tt; context_new_page := Ok tt;
     page_route := Ok tt; page_on := Ok tt; page_goto := fun _ => Ok tt;
     page_content := fun _ => Ok "<html><body>a</body></html>";
     page_wait_for_selector := Ok tt; page_url := "https://example.com/";
     asyncio_sleep := fun _ => Ok tt;
     asyncio_gather := Ok [("https://example.com/js/app.js", "var a = 1;")];
     async_playwright_exit := Ok tt; update_load_time := Ok tt;
     context_close := Ok tt; page_close := Ok tt; browser_close := Ok tt |}.

(** [calm] with one field replaced. *)
Definition with_resolver (f : string -> dns_answer) (w : World) : World :=
  {| urlparse_netloc := urlparse_netloc w; urlparse_path := urlparse_path w;
     get_proxy := get_proxy w; resolver_resolve := f;
     async_playwright_enter := async_playwright_enter w;
     chromium_launch := chromium_launch w;
     browser_new_context := browser_new_context w;
     context_new_page := context_new_page w;
     page_route := page_route w; page_on := page_on w;
     page_goto := page_goto w; page_content := page_content w;
     page_wait_for_selector := page_wait_for_selector w;
     page_url := page_url w; asyncio_sleep := asyncio_sleep w;
     asyncio_gather := asyncio_gather w;
     async_playwright_exit := async_playwright_exit w;
     update_load_time := update_load_time w;
     context_close := context_close w; page_close := page_close w;
     browser_close := browser_close w |}.

Definition with_wait_for_selector (o : outcome unit) (w : World) : World :=
  {| urlparse_netloc := urlparse_netloc w; urlparse_path := urlparse_path w;
     get_proxy := get_proxy w; resolver_resolve := resolver_resolve w;
     async_playwright_enter := async_playwright_enter w;
     chromium_launch := chromium_launch w;
     browser_new_context := browser_new_context w;
     context_new_page := context_new_page w;
     page_route := page_route w; page_on := page_on w;
     page_goto := page_goto w; page_content := page_content w;
     page_wait_for_selector := o;
     page_url := page_url w; asyncio_sleep := asyncio_sleep w;
     asyncio_gather := asyncio_gather w;
     async_playwright_exit := async_playwright_exit w;
     update_load_time := update_load_time w;
     context_close := context_close w; page_close := page_close w;
     browser_close := browser_close w |}.

Definition with_page_close (o : outcome unit) (w : World) : World :=
  {| urlparse_netloc := urlparse_netloc w; urlparse_path := urlparse_path w;
     get_proxy := get_proxy w; resolver_resolve := resolver_resolve w;
     async_playwright_enter := async_playwright_enter w;
     chromium_launch := chromium_launch w;
     browser_new_context := browser_new_context w;
     context_new_page := context_new_page w;
     page_route := page_route w; page_on := page_on w;
     page_goto := page_goto w; page_content := page_content w;
     page_wait_for_selector := page_wait_for_selector w;
     page_url := page_url w; asyncio_sleep := asyncio_sleep w;
     asyncio_gather := asyncio_gather w;
     async_playwright_exit := async_playwright_exit w;
     update_load_time := update_load_time w;
     context_close := context_close w; page_close := o;
     browser_close := browser_close w |}.

(** The domain does not exist. *)
Definition unresolvable : World := with_resolver (fun _ => NXDOMAIN) calm.

(** The task is cancelled while it waits for the [body] selector, after
    the first snapshot. *)
Definition cancelled_while_waiting : World :=
  with_wait_for_selector (Raise CancelledError) calm.

(** Everything succeeds until [page.close()] fails in the [finally]. *)
Definition page_close_fails : World :=
  with_page_close (Raise (Exception "Page.close: Connection closed")) calm.

(** Two requests for one image. *)
Definition logo : Filter.Request :=
  {| Filter.url := "https://example.com/logo.png";
     Filter.resource_type := "image" |}.

(** Two XHR requests for one URL, with a script in between. *)
Definition api : Filter.Request :=
  {| Filter.url := "https://example.com/api/items";
     Filter.resource_type := "xhr" |}.

Definition app_js : Filter.Request :=
  {| Filter.url := "https://example.com/js/app.js";
     Filter.resource_type := "script" |}.

(** Further worlds: [calm] with one more field replaced. *)
Definition with_gather (o : outcome (list (string * string))) (w : World) : World :=
  {| urlparse_netloc := urlparse_netloc w; urlparse_path := urlparse_path w;
     get_proxy := get_proxy w; resolver_resolve := resolver_resolve w;
     async_playwright_enter := async_playwright_enter w;
     chromium_launch := chromium_launch w;
     browser_new_context := browser_new_context w;
     context_new_page := context_new_page w;
     page_route := page_route w; page_on := page_on w;
     page_goto := page_goto w; page_content := page_content w;
     page_wait_for_selector := page_wait_for_selector w;
     page_url := page_url w; asyncio_sleep := asyncio_sleep w;
     asyncio_gather := o;
     async_playwright_exit := async_playwright_exit w;
     update_load_time := update_load_time w;
     context_close := context_close w; page_close := page_close w;
     browser_close := browser_close w |}.

Definition with_context_close (o : outcome unit) (w : World) : World :=
  {| urlparse_netloc := urlparse_netloc w; urlparse_path := urlparse_path w;
     get_proxy := get_proxy w; resolver_resolve := resolver_resolve w;
     async_playwright_enter := async_playwright_enter w;
     chromium_launch := chromium_launch w;
     browser_new_context := browser_new_context w;
     context_new_page := context_new_page w;
     page_route := page_route w; page_on := page_on w;
     page_goto := page_goto w; page_content := page_content w;
     page_wait_for_selector := page_wait_for_selector w;
     page_url := page_url w; asyncio_sleep := asyncio_sleep w;
     asyncio_gather := asyncio_gather w;
     async_playwright_exit := async_playwright_exit w;
     update_load_time := update_load_time w;
     context_close := o; page_close := page_close w;
     browser_close := browser_close w |}.

(** The [body] selector does not show up in time. *)
Definition selector_times_out : World :=
  with_wait_for_selector
    (Raise (PlaywrightTimeoutError "Timeout 12000ms exceeded.")) calm.

(** The page serves a plain script and one dense in hexadecimal literals. *)
Definition serves_dense_script : World :=
  with_gather (Ok [("https://example.com/js/app.js", "var a = 1;");
                   ("https://example.com/js/packed.js", six_literals)]) calm.

(** The page serves a script of one character. *)
Definition serves_tiny_script : World :=
  with_gather (Ok [("https://example.com/js/empty.js", ";")]) calm.

(** The resolver fails in a way [dns_resolve] does not catch. *)
Definition no_nameservers : World :=
  with_resolver (fun _ => ResolverError (Exception "All nameservers failed")) calm.

(** [context.close()] fails, the other two closes succeed. *)
Definition context_close_fails : World :=
  with_context_close (Raise (Exception "Context.close: Target closed")) calm.



(** Four responses: a script, a stylesheet, a script answered 404 and a
    script whose body cannot be read. *)
Definition script_response : Capture.Response :=
  {| Capture.url := "https://example.com/js/app.js";
     Capture.content_type := Some "application/javascript; charset=utf-8";
     Capture.status := 200; Capture.text := Ok "var a = 1;" |}.

Definition stylesheet_response : Capture.Response :=
  {| Capture.url := "https://example.com/site.css";
     Capture.content_type := Some "text/css";
     Capture.status := 200; Capture.text := Ok "body {}" |}.

Definition missing_script_response : Capture.Response :=
  {| Capture.url := "https://example.com/js/gone.js";
     Capture.content_type := Some "text/javascript";
     Capture.status := 404; Capture.text := Ok "" |}.

Definition unreadable_script_response : Capture.Response :=
  {| Capture.url := "https://example.com/js/cut.js";
     Capture.content_type := Some "text/javascript";
     Capture.status := 200;
     Capture.text := Raise (Exception "Response.text: Connection closed") |}.

(** Stand-ins for the parser, the worker's name and the producer. *)
Definition parse_domain (r : ScrapeResult) : outcome (gmap string string) :=
  Ok {["domain" := domain r]}.

Definition parse_fails (r : ScrapeResult) : outcome (gmap string string) :=
  Raise (Exception "KeyError: 'title'").

Definition send_ok (record : gmap string string) : outcome unit := Ok tt.

End Samples.


(** * Properties *)

(** ** The obfuscation heuristic *)

Section ObfuscationFacts.

Import Obfuscation Samples.

(** A loop that starts at or below the threshold and meets enough matches
    returns at the match that takes the count past the threshold, with the
    density of exactly [threshold + 1] matches. *)
Lemma count_matches_returns (matches : list (nat * nat)) :
  forall (hex_count threshold denom : Z) (density_threshold : Q),
    hex_count <= threshold ->
    threshold < hex_count + Z.of_nat (List.length matches) ->
    denom <> 0 ->
    count_matches matches hex_count threshold denom density_threshold
    = Ok (Returned (Qgtb (inject_Z (threshold + 1) / inject_Z denom) density_threshold)).
Proof.
  induction matches as [|m rest IH]; intros h t d dt Hle Hlt Hd.
  - simpl in Hlt. lia.
  - cbn [count_matches]. destruct (Z.ltb_spec t (h + 1)) as [Hgt|Hngt].
    + assert (h + 1 = t + 1) as -> by lia.
      unfold truediv. destruct (Z.eqb_spec d 0); [contradiction|]. reflexivity.
    + apply IH; try lia. rewrite length_cons in Hlt. lia.
Qed.

Lemma finditer_nil_prefix (js_code : string) :
  sample_length js_code = 0 -> prefix_tokens js_code = 0.
Proof.
  intros H. unfold prefix_tokens, sample_code. rewrite H. reflexivity.
Qed.

(** With six tokens in the sampled prefix the first loop returns at the
    sixth, and the flag is the density of six tokens over the prefix. *)
Lemma detect_obfuscation_six_tokens (js_code : string) :
  6 <= prefix_tokens js_code ->
  detect_obfuscation js_code
  = Ok (Qgtb (inject_Z 6 / inject_Z (sample_length js_code)) (5 # 100)).
Proof.
  intros Htok.
  assert (sample_length js_code <> 0) as Hlen.
  { intros H0. rewrite (finditer_nil_prefix _ H0) in Htok. lia. }
  unfold detect_obfuscation, detect_obfuscation_with.
  destruct (Z.eqb_spec (Z.of_nat (List.length (list_ascii_of_string js_code))) 0) as [Hz|Hnz].
  - exfalso. apply Hlen. unfold sample_length. rewrite Hz. reflexivity.
  - fold (sample_length js_code). fold (sample_code js_code).
    rewrite count_matches_returns; [reflexivity| lia | | assumption].
    unfold prefix_tokens in Htok. lia.
Qed.

(** C5 (as amended): a script body with at least 6 hexadecimal-literal
    tokens within its first 25% by length, where the density of the first
    six of them over that prefix (6 / prefix length) exceeds 0.05, is
    flagged: [detect_obfuscation] returns [True]. *)
Theorem detect_obfuscation_dense_prefix (js_code : string) :
  6 <= prefix_tokens js_code ->
  (5 # 100 < inject_Z 6 / inject_Z (sample_length js_code))%Q ->
  detect_obfuscation js_code = Ok true.
Proof.
  intros Htok Hdense. rewrite detect_obfuscation_six_tokens by assumption.
  unfold Qgtb. destruct (Qle_bool _ _) eqn:Hle; [|reflexivity].
  apply Qle_bool_iff in Hle. exfalso. exact (Qlt_not_le _ _ Hdense Hle).
Qed.

Lemma detect_obfuscation_dense_prefix_witness :
  6 <= prefix_tokens six_literals
  /\ (5 # 100 < inject_Z 6 / inject_Z (sample_length six_literals))%Q
  /\ detect_obfuscation six_literals = Ok true.
Proof.
  assert (6 <= prefix_tokens six_literals) as H1 by (vm_compute; discriminate).
  assert (5 # 100 < inject_Z 6 / inject_Z (sample_length six_literals))%Q as H2
    by (vm_compute; reflexivity).
  exact (conj H1 (conj H2 (detect_obfuscation_dense_prefix six_literals H1 H2))).
Defined.

(** C5 (as stated) fails: eleven tokens in a prefix of 200 characters have
    density 0.055 > 0.05, yet the flag is computed at the sixth token, from
    6 / 200 = 0.03, and is [False]. *)
Lemma detect_obfuscation_dense_prefix_unflagged :
  6 <= prefix_tokens eleven_literals
  /\ (5 # 100 < inject_Z (prefix_tokens eleven_literals)
                / inject_Z (sample_length eleven_literals))%Q
  /\ detect_obfuscation eleven_literals = Ok false.
Proof.
  split; [vm_compute; discriminate|]. split; vm_compute; reflexivity.
Qed.

(** C8: on a script body of 1 to 3 characters the sampled prefix has length
    [int(length * 0.25) = 0], and the density [0 / 0] raises
    [ZeroDivisionError] where a boolean was to be returned. *)
Theorem detect_obfuscation_short_body_raises (js_code : string) :
  (1 <= String.length js_code <= 3)%nat ->
  sample_length js_code = 0
  /\ detect_obfuscation js_code = Raise ZeroDivisionError.
Proof.
  intros [Hlo Hhi].
  destruct js_code as [|c1 [|c2 [|c3 [|c4 rest]]]]; simpl in Hlo, Hhi; try lia;
    split; reflexivity.
Qed.

Lemma detect_obfuscation_short_body_raises_witness :
  (1 <= String.length "a;" <= 3)%nat
  /\ sample_length "a;" = 0
  /\ detect_obfuscation "a;" = Raise ZeroDivisionError.
Proof.
  assert (1 <= String.length "a;" <= 3)%nat as H by (simpl; lia).
  exact (conj H (detect_obfuscation_short_body_raises "a;" H)).
Defined.

End ObfuscationFacts.

(** ** The request filter *)

Section FilterFacts.

Import Filter Samples.

Implicit Types (request : Request) (loaded : gset string).

Lemma handle_request_first request loaded :
  passes_blocklists request = true ->
  url request ∉ loaded ->
  handle_request request loaded = (Continue, {[url request]} ∪ loaded).
Proof.
  unfold passes_blocklists, handle_request. intros Hpass Hnew.
  apply andb_true_iff in Hpass as [Htype Hdom].
  apply negb_true_iff in Htype, Hdom. rewrite Htype, Hdom.
  rewrite bool_decide_eq_false_2 by assumption. reflexivity.
Qed.

Lemma handle_request_loaded request loaded :
  url request ∈ loaded -> (handle_request request loaded).1 = Abort.
Proof.
  unfold handle_request. intros Hin.
  destruct (existsb _ blocked_resource_types); [reflexivity|].
  destruct (existsb _ blocked_domains); [reflexivity|].
  rewrite bool_decide_eq_true_2 by assumption. reflexivity.
Qed.

Lemma handle_request_grows request loaded :
  loaded ⊆ (handle_request request loaded).2.
Proof.
  unfold handle_request.
  destruct (existsb _ blocked_resource_types); [set_solver|].
  destruct (existsb _ blocked_domains); [set_solver|].
  destruct (bool_decide _); set_solver.
Qed.

Lemma handle_request_other request loaded (u : string) :
  u ∉ loaded -> url request ≠ u -> u ∉ (handle_request request loaded).2.
Proof.
  unfold handle_request. intros Hnew Hne.
  destruct (existsb _ blocked_resource_types); [assumption|].
  destruct (existsb _ blocked_domains); [assumption|].
  destruct (bool_decide _); [assumption|]. cbn [snd].
  intros [Hu | Hu]%elem_of_union; [|contradiction].
  apply elem_of_singleton in Hu. congruence.
Qed.

Lemma handle_requests_cons request (rest : list Request) loaded :
  handle_requests (request :: rest) loaded
  = ((handle_request request loaded).1
       :: (handle_requests rest (handle_request request loaded).2).1,
     (handle_requests rest (handle_request request loaded).2).2).
Proof.
  cbn [handle_requests]. destruct (handle_request request loaded) as [d l1].
  cbn [fst snd]. destruct (handle_requests rest l1) as [ds l2]. reflexivity.
Qed.

Lemma handle_requests_grows (requests : list Request) :
  forall loaded, loaded ⊆ (handle_requests requests loaded).2.
Proof.
  induction requests as [|request rest IH]; intros loaded; [set_solver|].
  rewrite handle_requests_cons. cbn [snd].
  etransitivity; [apply (handle_request_grows request)|apply IH].
Qed.

(** Once a URL is in the set, every request for it is aborted. *)
Lemma handle_requests_loaded (requests : list Request) :
  forall loaded (u : string) (j : nat) request,
    u ∈ loaded ->
    requests !! j = Some request ->
    url request = u ->
    (handle_requests requests loaded).1 !! j = Some Abort.
Proof.
  induction requests as [|r rest IH]; intros loaded u j request Hin Hj Hu;
    [discriminate|].
  rewrite handle_requests_cons. cbn [fst]. destruct j as [|j].
  - injection Hj as ->. cbn. f_equal. apply handle_request_loaded.
    rewrite Hu. assumption.
  - cbn in Hj |- *. apply (IH _ u j request); [|assumption..].
    apply (handle_request_grows r loaded). assumption.
Qed.

Lemma handle_requests_from (requests : list Request) :
  forall loaded (i : nat) request,
    requests !! i = Some request ->
    passes_blocklists request = true ->
    url request ∉ loaded ->
    (forall (k : nat) earlier,
        (k < i)%nat -> requests !! k = Some earlier -> url earlier ≠ url request) ->
    (handle_requests requests loaded).1 !! i = Some Continue
    /\ url request ∈ (handle_requests requests loaded).2
    /\ forall (j : nat) later,
        (i < j)%nat -> requests !! j = Some later -> url later = url request ->
        (handle_requests requests loaded).1 !! j = Some Abort.
Proof.
  induction requests as [|r rest IH]; intros loaded i request Hi Hpass Hnew Hfirst;
    [discriminate|].
  rewrite handle_requests_cons. cbn [fst snd]. destruct i as [|i].
  - injection Hi as ->. rewrite handle_request_first by assumption. cbn [fst snd].
    assert (url request ∈ ({[url request]} ∪ loaded : gset string)) as Hin
      by (apply elem_of_union_l, elem_of_singleton; reflexivity).
    split; [reflexivity|]. split.
    + apply (handle_requests_grows rest). exact Hin.
    + intros [|j] later Hj Hlater Hu; [lia|]. cbn in Hlater |- *.
      apply (handle_requests_loaded rest _ (url request) j later); assumption.
  - cbn in Hi.
    assert (url r ≠ url request) as Hne by (apply (Hfirst O); [lia|reflexivity]).
    destruct (IH (handle_request r loaded).2 i request Hi Hpass) as (Hc & Hin & Hab).
    + apply handle_request_other; assumption.
    + intros k earlier Hk Hearlier. apply (Hfirst (S k)); [lia|exact Hearlier].
    + split; [exact Hc|]. split; [exact Hin|].
      intros [|j] later Hj Hlater Hu; [lia|]. cbn in Hlater |- *.
      apply (Hab j later); [lia|assumption..].
Qed.

(** C7 (as amended): within one session, whose set of requested URLs starts
    empty, if the first request for a URL is neither of a blocked resource
    category nor for a URL with a blocked substring, that request is allowed
    and the URL recorded, and every later request for the same URL is
    aborted. *)
Theorem repeated_url_allowed_once (requests : list Request) (i : nat) request :
  requests !! i = Some request ->
  passes_blocklists request = true ->
  (forall (k : nat) earlier,
      (k < i)%nat -> requests !! k = Some earlier -> url earlier ≠ url request) ->
  (handle_requests requests ∅).1 !! i = Some Continue
  /\ url request ∈ (handle_requests requests ∅).2
  /\ forall (j : nat) later,
      (i < j)%nat -> requests !! j = Some later -> url later = url request ->
      (handle_requests requests ∅).1 !! j = Some Abort.
Proof.
  intros Hi Hpass Hfirst.
  apply handle_requests_from; [assumption..|set_solver|assumption].
Qed.

Lemma repeated_url_allowed_once_witness :
  (handle_requests [app_js; api; app_js; api] ∅).1 !! 1%nat = Some Continue
  /\ url api ∈ (handle_requests [app_js; api; app_js; api] ∅).2
  /\ forall (j : nat) later,
      (1 < j)%nat -> [app_js; api; app_js; api] !! j = Some later ->
      url later = url api ->
      (handle_requests [app_js; api; app_js; api] ∅).1 !! j = Some Abort.
Proof.
  apply (repeated_url_allowed_once [app_js; api; app_js; api] 1 api).
  - reflexivity.
  - reflexivity.
  - intros [|k] earlier Hk Hearlier; [|lia].
    injection Hearlier as <-. discriminate.
Defined.

(** C7 (as stated) fails: of two requests for one image URL the first is
    aborted like the second, and the URL is never recorded. *)
Lemma repeated_image_never_allowed :
  (handle_requests [logo; logo] ∅).1 = [Abort; Abort]
  /\ url logo ∉ (handle_requests [logo; logo] ∅).2.
Proof.
  split; [reflexivity|]. cbn. set_solver.
Qed.

End FilterFacts.

(** ** The scrape session *)

Section SessionFacts.

Import Session Samples.
Local Open Scope session_scope.

(** *** Counting calls *)

Lemma feedback_calls_log (ev : event) (st : locals) :
  feedback_calls (Vars.trace (log ev st))
  = (feedback_calls (Vars.trace st) + if is_update_load_time ev then 1 else 0)%nat.
Proof.
  unfold feedback_calls, log. cbn [Vars.trace Vars.set_trace].
  rewrite List.filter_app, List.length_app. cbn [List.filter].
  destruct (is_update_load_time ev); reflexivity.
Qed.

Lemma snapshots_log (ev : event) (st : locals) :
  snapshots (Vars.trace (log ev st))
  = (snapshots (Vars.trace st) + if is_content ev then 1 else 0)%nat.
Proof.
  unfold snapshots, log. cbn [Vars.trace Vars.set_trace].
  rewrite List.filter_app, List.length_app. cbn [List.filter].
  destruct (is_content ev); reflexivity.
Qed.

Lemma sleeps_log (ev : event) (st : locals) :
  sleeps (Vars.trace (log ev st))
  = (sleeps (Vars.trace st) + if is_sleep ev then 1 else 0)%nat.
Proof.
  unfold sleeps, log. cbn [Vars.trace Vars.set_trace].
  rewrite List.filter_app, List.length_app. cbn [List.filter].
  destruct (is_sleep ev); reflexivity.
Qed.

(** *** Rules for [preserves] *)

Section Preserves.

Context {T : Type} (f : locals -> T).

Lemma preserves_ret {A} (a : A) : preserves f (ret a).
Proof. intros st. exists (Ok a), st. split; reflexivity. Qed.

Lemma preserves_gets {A} (g : locals -> A) : preserves f (gets g).
Proof. intros st. exists (Ok (g st)), st. split; reflexivity. Qed.

Lemma preserves_lift {A} (o : outcome A) : preserves f (lift o).
Proof. intros st. exists o, st. split; reflexivity. Qed.

Lemma preserves_modify (g : locals -> locals) :
  (forall st, f (g st) = f st) -> preserves f (modify g).
Proof. intros Hg st. exists (Ok tt), (g st). split; [reflexivity|apply Hg]. Qed.

Lemma preserves_bind {A B} (m : M A) (k : A -> M B) :
  preserves f m -> (forall a, preserves f (k a)) -> preserves f (bind m k).
Proof.
  intros Hm Hk st. destruct (Hm st) as (o & st1 & Hrun & Hf).
  unfold bind. rewrite Hrun. destruct o as [a|e].
  - destruct (Hk a st1) as (o2 & st2 & Hrun2 & Hf2).
    exists o2, st2. split; [assumption|congruence].
  - exists (Raise e), st1. split; [reflexivity|assumption].
Qed.

Lemma preserves_emit (ev : event) :
  (forall st, f (log ev st) = f st) -> preserves f (emit ev).
Proof. apply preserves_modify. Qed.

Lemma preserves_call {A} (ev : event) (o : outcome A) :
  (forall st, f (log ev st) = f st) -> preserves f (call ev o).
Proof.
  intros Hev. apply preserves_bind; [apply preserves_emit, Hev|].
  intros _. apply preserves_lift.
Qed.

Lemma preserves_call_at {A} (ev : event) (o : list event -> outcome A) :
  (forall st, f (log ev st) = f st) -> preserves f (call_at ev o).
Proof.
  intros Hev. apply preserves_bind; [apply preserves_gets|].
  intros history. apply preserves_bind; [apply preserves_emit, Hev|].
  intros _. apply preserves_lift.
Qed.

Lemma preserves_try_except {A} (m : M A) (h : exn -> option (M A)) :
  preserves f m ->
  (forall e k, h e = Some k -> preserves f k) ->
  preserves f (try_except m h).
Proof.
  intros Hm Hh st. destruct (Hm st) as (o & st1 & Hrun & Hf).
  unfold try_except. rewrite Hrun. destruct o as [a|e].
  - exists (Ok a), st1. split; [reflexivity|assumption].
  - destruct (h e) as [k|] eqn:He.
    + destruct (Hh e k He st1) as (o2 & st2 & Hrun2 & Hf2).
      exists o2, st2. split; [assumption|congruence].
    + exists (Raise e), st1. split; [reflexivity|assumption].
Qed.

Lemma preserves_try_finally {A} (m : M A) (fin : M unit) :
  preserves f m -> preserves f fin -> preserves f (try_finally m fin).
Proof.
  intros Hm Hfin st. destruct (Hm st) as (o & st1 & Hrun & Hf).
  destruct (Hfin st1) as (o2 & st2 & Hrun2 & Hf2).
  unfold try_finally. rewrite Hrun, Hrun2. destruct o2 as [[]|e].
  - exists o, st2. split; [reflexivity|congruence].
  - exists (Raise e), st2. split; [reflexivity|congruence].
Qed.

Lemma preserves_async_with {A} (enter exit : M unit) (body : M A) :
  preserves f enter -> preserves f exit -> preserves f body ->
  preserves f (async_with enter exit body).
Proof.
  intros He Hx Hb. apply preserves_bind; [assumption|].
  intros _. apply preserves_try_finally; assumption.
Qed.

Lemma preserves_if {A} (b : bool) (m1 m2 : M A) :
  preserves f m1 -> preserves f m2 -> preserves f (if b then m1 else m2).
Proof. destruct b; intros; assumption. Qed.

Lemma preserves_scan_scripts (script_contents : list string) :
  (forall st, f (Vars.set_has_obfuscation true st) = f st) ->
  preserves f (scan_scripts script_contents).
Proof.
  intros Hobf. induction script_contents as [|script rest IH].
  - apply preserves_ret.
  - cbn [scan_scripts]. apply preserves_bind; [apply preserves_lift|].
    intros flag. apply preserves_if; [apply preserves_modify, Hobf|exact IH].
Qed.

End Preserves.

(** *** The convergence loop *)

(** Entered with its three counters at zero, the loop ends at once, with
    any budget: the condition [0 < 0 + 0] is false at the first test. *)
Lemma poll_loop_idle (w : World) (a : Args) (fuel : nat) (st : locals) :
  Vars.total_iterations st = 0 ->
  Vars.unchanged_iterations st = 0 ->
  Vars.changed_iterations st = 0 ->
  poll_loop w a fuel st = Some (Ok tt, st).
Proof.
  intros Ht Hu Hc. destruct fuel; cbn [poll_loop]; rewrite Ht, Hu, Hc; reflexivity.
Qed.

Lemma content_poll_idle (w : World) (a : Args) (fuel : nat) (st : locals) :
  content_poll w a fuel st = Some (Ok tt, poll_entry st).
Proof.
  unfold content_poll, bind, modify.
  apply poll_loop_idle; reflexivity.
Qed.

Lemma preserves_content_poll {T} (f : locals -> T) (w : World) (a : Args)
    (fuel : nat) :
  (forall st, f (poll_entry st) = f st) -> preserves f (content_poll w a fuel).
Proof.
  intros Hf st. exists (Ok tt), (poll_entry st).
  split; [apply content_poll_idle|apply Hf].
Qed.

(** *** Running a computation step by step *)

Lemma bind_gets {A B} (g : locals -> A) (k : A -> M B) (st : locals) :
  bind (gets g) k st = k (g st) st.
Proof. reflexivity. Qed.

Lemma bind_modify {B} (g : locals -> locals) (k : unit -> M B) (st : locals) :
  bind (modify g) k st = k tt (g st).
Proof. reflexivity. Qed.

Lemma bind_call {A B} (ev : event) (o : outcome A) (k : A -> M B) (st : locals) :
  bind (call ev o) k st
  = match o with
    | Ok a => k a (log ev st)
    | Raise e => Some (Raise e, log ev st)
    end.
Proof. destruct o; reflexivity. Qed.

Lemma bind_call_at {A B} (ev : event) (o : list event -> outcome A)
    (k : A -> M B) (st : locals) :
  bind (call_at ev o) k st
  = match o (Vars.trace st) with
    | Ok a => k a (log ev st)
    | Raise e => Some (Raise e, log ev st)
    end.
Proof. unfold call_at, bind, gets, emit, modify, lift. destruct (o _); reflexivity. Qed.

Lemma bind_ok_inv {A B} (m : M A) (k : A -> M B) (st st' : locals) (b : B) :
  bind m k st = Some (Ok b, st') ->
  exists a st1, m st = Some (Ok a, st1) /\ k a st1 = Some (Ok b, st').
Proof.
  unfold bind. destruct (m st) as [[[a|e] st1]|]; [|discriminate..].
  intros H. exists a, st1. split; [reflexivity|assumption].
Qed.

Lemma try_finally_ok_inv {A} (m : M A) (fin : M unit) (st st' : locals) (a : A) :
  try_finally m fin st = Some (Ok a, st') ->
  exists st1, m st = Some (Ok a, st1) /\ fin st1 = Some (Ok tt, st').
Proof.
  unfold try_finally. destruct (m st) as [[o st1]|]; [|discriminate].
  destruct (fin st1) as [[[[]|e] st2]|] eqn:Hfin; [|discriminate..].
  intros H. injection H as -> ->. exists st1. split; [reflexivity|exact Hfin].
Qed.

(** Discharges the side conditions of the [preserves] rules: the
    observation does not depend on the variable assigned or on the call
    logged. *)
Ltac unchanged :=
  intros; unfold feedback_view, poll_view;
  rewrite ?feedback_calls_log, ?snapshots_log, ?sleeps_log;
  cbn; rewrite ?Nat.add_0_r; reflexivity.

Ltac preserve :=
  repeat first
    [ apply preserves_ret
    | apply preserves_gets
    | apply preserves_lift
    | apply preserves_modify; unchanged
    | apply preserves_emit; unchanged
    | apply preserves_call; unchanged
    | apply preserves_call_at; unchanged
    | apply preserves_content_poll; unchanged
    | apply preserves_scan_scripts; unchanged
    | apply preserves_if
    | apply preserves_bind; [|intros ?]
    | apply preserves_async_with
    | apply preserves_try_finally ].

(** *** Proxy feedback *)

Lemma try_body_silent (w : World) (a : Args) (fuel : nat) (url : string) :
  preserves feedback_view (try_body w a fuel url).
Proof.
  unfold try_body, open_page, navigate, collect_scripts. preserve.
Qed.

Lemma handlers_preserve {T} (f : locals -> T) (url domain : string)
    (resolved_ip : option (list string)) :
  (forall st, f (Vars.set_proxy_success false st) = f st) ->
  forall e k, handlers url domain resolved_ip e = Some k -> preserves f k.
Proof.
  intros Hps e k Hk. destruct e; cbn in Hk; try discriminate;
    injection Hk as <-;
    repeat first [ apply preserves_ret | apply preserves_gets
                 | apply preserves_modify; exact Hps
                 | apply preserves_bind; [|intros ?] ].
Qed.

Lemma teardown_preserves {T} (f : locals -> T) (w : World) :
  (forall ev st, is_update_load_time ev = false -> is_content ev = false ->
                 is_sleep ev = false -> f (log ev st) = f st) ->
  preserves f (teardown w).
Proof.
  intros Hlog. unfold teardown.
  repeat first
    [ apply preserves_ret | apply preserves_gets
    | apply preserves_call; intros; apply Hlog; reflexivity
    | apply preserves_if
    | apply preserves_bind; [|intros ?]
    | apply preserves_try_except; [|intros e k Hk; destruct (is_Exception e);
                                    [injection Hk as <-|discriminate]] ].
Qed.

Lemma teardown_silent (w : World) : preserves feedback_view (teardown w).
Proof.
  apply teardown_preserves. intros ev st Hu _ _. unfold feedback_view.
  rewrite feedback_calls_log, Hu. apply Nat.add_0_r.
Qed.

(** The [finally] clause ends from every state and calls
    [update_load_time] exactly once, before anything else. *)
Lemma finalizer_once (w : World) (st : locals) :
  exists o st', finalizer w st = Some (o, st')
                /\ feedback_view st' = S (feedback_view st).
Proof.
  unfold finalizer. rewrite bind_gets, bind_call.
  set (ev := EvUpdateLoadTime _ _).
  assert (feedback_view (log ev st) = S (feedback_view st)) as Hone.
  { unfold feedback_view. rewrite feedback_calls_log. cbn. lia. }
  destruct (update_load_time w) as [[]|e].
  - destruct (teardown_silent w (log ev st)) as (o & st' & Hrun & Hf).
    exists o, st'. split; [exact Hrun|congruence].
  - exists (Raise e), (log ev st). split; [reflexivity|exact Hone].
Qed.

Lemma try_statement_once (w : World) (a : Args) (fuel : nat) (url domain : string)
    (resolved_ip : option (list string)) (st : locals) :
  exists o st', try_statement w a fuel url domain resolved_ip st = Some (o, st')
                /\ feedback_view st' = S (feedback_view st).
Proof.
  unfold try_statement, try_finally.
  assert (preserves feedback_view
            (try_except (try_body w a fuel url ;; ret None)
                        (handlers url domain resolved_ip))) as Hbody.
  { apply preserves_try_except.
    - apply preserves_bind; [apply try_body_silent|intros _; apply preserves_ret].
    - apply handlers_preserve. reflexivity. }
  destruct (Hbody st) as (o1 & st1 & Hrun1 & Hf1). rewrite Hrun1.
  destruct (finalizer_once w st1) as (o2 & st2 & Hrun2 & Hf2). rewrite Hrun2.
  destruct o2 as [[]|e].
  - exists o1, st2. split; [reflexivity|congruence].
  - exists (Raise e), st2. split; [reflexivity|congruence].
Qed.

(** C1 (as amended): a session calls [update_load_time] exactly once when
    the DNS pre-check yields addresses, whatever happens afterwards (a
    result with status complete, Timeout, Cancelled or Failed, or an
    exception that escapes), and not at all when it ends at the DNS gate. *)
Theorem feedback_once_past_dns_gate (w : World) (a : Args) (fuel : nat) (url : string) :
  exists o st,
    scrape_website_async_with w a fuel url = Some (o, st)
    /\ feedback_calls (Vars.trace st)
       = match resolver_resolve w (urlparse_netloc w (with_scheme url)) with
         | Answer (_ :: _) => 1%nat
         | _ => 0%nat
         end.
Proof.
  unfold scrape_website_async_with, scrape, emit.
  rewrite bind_modify, bind_call. unfold dns_resolve.
  destruct (resolver_resolve w _) as [[|ip ips]| | | |e];
    try (eexists _, _; split; reflexivity).
  cbn [not_ips]. set (st0 := log _ _).
  destruct (try_statement_once w a fuel (with_scheme url)
              (urlparse_netloc w (with_scheme url)) (Some (ip :: ips)) st0)
    as (o & st' & Hrun & Hf).
  unfold bind at 1. rewrite Hrun. unfold feedback_view in Hf.
  destruct o as [[r|]|e]; eexists _, _; (split; [reflexivity|exact Hf]).
Qed.

(** C1 (as stated) fails on the DNS Error path: the session of a domain
    that does not resolve returns its result without a single call of
    [update_load_time]. *)
Lemma dns_error_gives_no_feedback :
  exists r st,
    scrape_website_async unresolvable 0 "nowhere.invalid" = Some (Ok r, st)
    /\ status_code r = DNS_Error
    /\ feedback_calls (Vars.trace st) = 0%nat
    /\ feedback_calls (Vars.trace st) <> 1%nat.
Proof.
  eexists _, _. split; [vm_compute; reflexivity|].
  split; [reflexivity|]. split; [reflexivity|discriminate].
Qed.

(** *** Which results a session returns *)

Lemma preserves_run {T A} (f : locals -> T) (m : M A) (st st' : locals)
    (o : outcome A) :
  preserves f m -> m st = Some (o, st') -> f st' = f st.
Proof.
  intros Hm Hrun. destruct (Hm st) as (o1 & st1 & Hrun1 & Hf).
  rewrite Hrun in Hrun1. injection Hrun1 as <- <-. exact Hf.
Qed.

Lemma finalizer_preserves {T} (f : locals -> T) (w : World) :
  (forall ev st, is_content ev = false -> is_sleep ev = false ->
                 f (log ev st) = f st) ->
  preserves f (finalizer w).
Proof.
  intros Hlog. unfold finalizer.
  apply preserves_bind; [apply preserves_gets|]. intros proxy_success.
  apply preserves_bind.
  - apply preserves_call. intros st. apply Hlog; reflexivity.
  - intros _. apply teardown_preserves. intros ev st _ Hc Hs. apply Hlog; assumption.
Qed.


(** From the assignment [status_code = "complete"] on, the suite of the
    [try] leaves the loop's variables alone. *)
Lemma collect_scripts_view (w : World) (st : locals) :
  exists o st',
    collect_scripts w st = Some (o, st')
    /\ poll_view st'
       = (Vars.total_iterations st, Vars.current_content st, complete,
          snapshots (Vars.trace st), sleeps (Vars.trace st)).
Proof.
  unfold collect_scripts. rewrite !bind_modify.
  match goal with
  | |- exists o st', ?m ?s = _ /\ _ =>
      assert (preserves poll_view m) as Hm by preserve;
      destruct (Hm s) as (o & st' & Hrun & Hview)
  end.
  exists o, st'. split; [exact Hrun|]. rewrite Hview. reflexivity.
Qed.

(** The suite of the [try] ends normally only with [status_code] set to
    complete: the assignment to loading is inside the loop and the one to
    complete follows it. *)
Lemma try_body_ok_complete (w : World) (a : Args) (fuel : nat) (url : string)
    (st st' : locals) :
  try_body w a fuel url st = Some (Ok tt, st') -> Vars.status_code st' = complete.
Proof.
  unfold try_body, async_with. intros H.
  apply bind_ok_inv in H as (? & s1 & _ & H).
  apply try_finally_ok_inv in H as (s2 & Hbody & Hexit).
  apply bind_ok_inv in Hbody as (? & s3 & _ & Hbody).
  apply bind_ok_inv in Hbody as (? & s4 & _ & Hbody).
  apply bind_ok_inv in Hbody as (? & s5 & _ & Hbody).
  destruct (collect_scripts_view w s5) as (o & s6 & Hrun & Hview).
  rewrite Hbody in Hrun. injection Hrun as <- <-.
  assert (preserves poll_view
            (call EvPlaywrightExit (async_playwright_exit w))) as Hx by preserve.
  pose proof (preserves_run _ _ _ _ _ Hx Hexit) as Hsame.
  rewrite Hview in Hsame. unfold poll_view in Hsame. congruence.
Qed.

(** What the guarded suite hands to the [finally] clause: the dict of an
    [except] clause, or nothing, and then [status_code] is complete. *)
Lemma guarded_body_returns (w : World) (a : Args) (fuel : nat) (url domain : string)
    (resolved_ip : option (list string)) (st st' : locals)
    (o : outcome (option ScrapeResult)) :
  try_except (try_body w a fuel url ;; ret None)
             (handlers url domain resolved_ip) st = Some (o, st') ->
  match o with
  | Ok (Some r) => from_except_clause url domain resolved_ip r
  | Ok None => Vars.status_code st' = complete
  | Raise _ => True
  end.
Proof.
  unfold try_except, bind, from_except_clause.
  destruct (try_body w a fuel url st) as [[[[]|e] s1]|] eqn:Hbody; [| |discriminate].
  - cbn. intros H. injection H as <- <-. exact (try_body_ok_complete _ _ _ _ _ _ Hbody).
  - destruct e; cbn; intros H; injection H as <- <-; eauto.
Qed.

Lemma try_statement_returns (w : World) (a : Args) (fuel : nat) (url domain : string)
    (resolved_ip : option (list string)) (st st' : locals)
    (o : outcome (option ScrapeResult)) :
  try_statement w a fuel url domain resolved_ip st = Some (o, st') ->
  match o with
  | Ok (Some r) => from_except_clause url domain resolved_ip r
  | Ok None => Vars.status_code st' = complete
  | Raise _ => True
  end.
Proof.
  unfold try_statement, try_finally.
  destruct (try_except _ _ st) as [[o1 s1]|] eqn:Hguard; [|discriminate].
  apply guarded_body_returns in Hguard.
  destruct (finalizer w s1) as [[[[]|e] s2]|] eqn:Hfin; [| |discriminate];
    intros H; injection H as <- <-; [|exact I].
  destruct o1 as [[r|]|e]; [exact Hguard| |exact I].
  rewrite <- Hguard.
  assert (preserves Vars.status_code (finalizer w)) as Hstatus
    by (apply finalizer_preserves; reflexivity).
  exact (preserves_run _ _ _ _ _ Hstatus Hfin).
Qed.

(** Every dict a session returns is one of the five the source builds. *)
Lemma scrape_returns (w : World) (a : Args) (fuel : nat) (url : string)
    (r : ScrapeResult) (st : locals) :
  scrape_website_async_with w a fuel url = Some (Ok r, st) ->
  (r = dns_error_result (urlparse_netloc w (with_scheme url))
   /\ no_addresses (resolver_resolve w (urlparse_netloc w (with_scheme url))) = true)
  \/ (exists resolved_ip,
        from_except_clause (with_scheme url) (urlparse_netloc w (with_scheme url))
          resolved_ip r)
  \/ (exists resolved_ip,
        r = final_result (with_scheme url) resolved_ip st
        /\ Vars.status_code st = complete).
Proof.
  unfold scrape_website_async_with, scrape, emit.
  rewrite bind_modify, bind_call. unfold dns_resolve.
  destruct (resolver_resolve w _) as [[|ip ips]| | | |e];
    try (cbn; intros H; injection H as <- <-; left; split; reflexivity);
    [|discriminate].
  cbn [not_ips]. unfold bind at 1.
  destruct (try_statement _ _ _ _ _ _ _) as [[[[r'|]|e] s1]|] eqn:Hts;
    [| |discriminate..]; apply try_statement_returns in Hts;
    cbn; intros H; injection H as <- <-; right; eauto.
Qed.

Lemma from_except_clause_status (url domain : string)
    (resolved_ip : option (list string)) (r : ScrapeResult) :
  from_except_clause url domain resolved_ip r ->
  Session.domain r = url
  /\ error r <> None
  /\ (status_code r = Cancelled /\ ip r = None /\ html_content r = ""
      \/ status_code r = Timeout
      \/ status_code r = Failed).
Proof.
  intros [-> | [[st ->] | (e & st & ->)]]; cbn; repeat split; auto; discriminate.
Qed.

(** *** The DNS gate *)

(** C6: when the DNS pre-check yields no addresses (NXDOMAIN, no answer, a
    timeout, or an empty answer) the session returns status DNS Error with
    a null [ip] and empty [html_content], and has opened no browser, no
    context and no page. *)
Theorem dns_gate_ends_session (w : World) (a : Args) (fuel : nat) (url : string) :
  no_addresses (resolver_resolve w (urlparse_netloc w (with_scheme url))) = true ->
  exists r st,
    scrape_website_async_with w a fuel url = Some (Ok r, st)
    /\ status_code r = DNS_Error
    /\ ip r = None
    /\ html_content r = ""
    /\ existsb is_browser_work (Vars.trace st) = false
    /\ Vars.browser st = false /\ Vars.context st = false /\ Vars.page st = false.
Proof.
  intros Hdns. unfold scrape_website_async_with, scrape, emit.
  rewrite bind_modify, bind_call. unfold dns_resolve.
  destruct (resolver_resolve w _) as [[|ip ips]| | | |e]; try discriminate;
    eexists _, _; (split; [reflexivity|]); repeat split.
Qed.

Lemma dns_gate_ends_session_witness :
  exists r st,
    scrape_website_async_with unresolvable default_args 0 "nowhere.invalid"
    = Some (Ok r, st)
    /\ status_code r = DNS_Error
    /\ ip r = None
    /\ html_content r = ""
    /\ existsb is_browser_work (Vars.trace st) = false
    /\ Vars.browser st = false /\ Vars.context st = false /\ Vars.page st = false.
Proof.
  apply (dns_gate_ends_session unresolvable default_args 0 "nowhere.invalid").
  reflexivity.
Defined.

(** *** The polling phase *)



Lemma bind_ok_run {A B} (m : M A) (k : A -> M B) (st st1 : locals) (a : A) :
  m st = Some (Ok a, st1) -> bind m k st = k a st1.
Proof. intros H. unfold bind. rewrite H. reflexivity. Qed.





(** *** Teardown *)

(** C3 fails on the code: with every step of the scrape successful, an
    exception of [page.close()] in the [finally] clause leaves
    [scrape_website_async] in place of the completed result. *)
Theorem page_close_failure_escapes :
  exists st,
    scrape_website_async page_close_fails 0 "example.com"
    = Some (Raise (Exception "Page.close: Connection closed"), st)
    /\ Vars.status_code st = complete
    /\ existsb (fun ev => match ev with EvBrowserClose => true | _ => false end)
         (Vars.trace st) = false.
Proof.
  eexists. split; [vm_compute; reflexivity|]. split; reflexivity.
Qed.

(** *** Cancellation *)

(** C4 fails on the code: cancelled while waiting for the [body] selector,
    after the DNS lookup gave an address and the first snapshot was taken,
    the session returns status Cancelled with neither of them, its [ip]
    null and its [html_content] empty.  A timeout of the same wait, in the
    clause next to it, returns both. *)
Lemma cancelled_result_loses_partial_data :
  (exists r st,
      scrape_website_async cancelled_while_waiting 0 "example.com" = Some (Ok r, st)
      /\ status_code r = Cancelled
      /\ resolver_resolve cancelled_while_waiting "example.com"
         = Answer ["93.184.216.34"]
      /\ Vars.html_content st = "<html><body>a</body></html>"
      /\ ip r = None
      /\ html_content r = "")
  /\ (exists r st,
        scrape_website_async selector_times_out 0 "example.com" = Some (Ok r, st)
        /\ status_code r = Timeout
        /\ ip r = Some ["93.184.216.34"]
        /\ html_content r = "<html><body>a</body></html>").
Proof.
  split; eexists _, _; (split; [vm_compute; reflexivity|]); repeat split.
Qed.

(** *** The [domain] key *)




(** The two shapes side by side: one input, [example.com], names its
    result by host when DNS fails and by URL when the scrape completes. *)
Example domain_field_differs :
  exists r1 st1 r2 st2,
    scrape_website_async unresolvable 0 "example.com" = Some (Ok r1, st1)
    /\ scrape_website_async calm 0 "example.com" = Some (Ok r2, st2)
    /\ domain r1 = "example.com"
    /\ domain r2 = "https://example.com".
Proof.
  eexists _, _, _, _. split; [vm_compute; reflexivity|].
  split; [vm_compute; reflexivity|]. split; reflexivity.
Qed.

End SessionFacts.

(** ** The dispatcher *)

Section DispatcherFacts.

Import Session Dispatcher Samples.

(** The dicts of the DNS Error and the Cancelled path carry no HTML. *)
Lemma blank_html_statuses (w : World) (a : Args) (fuel : nat) (url : string)
    (r : ScrapeResult) (st : locals) :
  scrape_website_async_with w a fuel url = Some (Ok r, st) ->
  status_code r = DNS_Error \/ status_code r = Cancelled ->
  html_content r = "".
Proof.
  intros Hrun Hstatus.
  apply scrape_returns in Hrun as [[-> _] | [[ips Hex] | [ips [-> Hc]]]].
  - reflexivity.
  - apply from_except_clause_status in Hex as (_ & _ & [(_ & _ & Hhtml) | [H | H]]);
      [exact Hhtml|destruct Hstatus; congruence..].
  - cbn in Hstatus. destruct Hstatus; congruence.
Qed.

Variable from_scraper_to_parsed_data : ScrapeResult -> outcome (gmap string string).
Variable client_name : string.
Variable producer_send : gmap string string -> outcome unit.

(** C9: when the session's dict has an empty [html_content], as every DNS
    Error and every Cancelled dict has, [process_scrape_task] returns
    [None] and [process_domain] publishes nothing: the sink is as before. *)
Theorem blank_html_is_not_published (w : World) (fuel : nat) (domain : string)
    (r : ScrapeResult) (st : locals) (sink : list (gmap string string)) :
  scrape_website_async w fuel domain = Some (Ok r, st) ->
  status_code r = DNS_Error \/ status_code r = Cancelled \/ html_content r = "" ->
  html_content r = ""
  /\ process_scrape_task from_scraper_to_parsed_data w fuel domain = Some (Ok None)
  /\ process_domain from_scraper_to_parsed_data client_name producer_send
       w fuel domain sink
     = Some (Ok tt, sink).
Proof.
  intros Hrun Hblank.
  assert (html_content r = "") as Hhtml.
  { destruct Hblank as [H | [H | H]]; [| |exact H];
      apply (blank_html_statuses _ _ _ _ _ _ Hrun); auto. }
  split; [exact Hhtml|].
  unfold process_domain, process_scrape_task. rewrite Hrun.
  unfold process_scraped. rewrite Hhtml. cbn. split; reflexivity.
Qed.

End DispatcherFacts.

Lemma blank_html_is_not_published_witness :
  exists r st,
    Session.scrape_website_async Samples.unresolvable 0 "nowhere.invalid"
    = Some (Ok r, st)
    /\ Session.html_content r = ""
    /\ Dispatcher.process_scrape_task
         (fun r => Ok {["domain" := Session.domain r]})
         Samples.unresolvable 0 "nowhere.invalid"
       = Some (Ok None)
    /\ Dispatcher.process_domain
         (fun r => Ok {["domain" := Session.domain r]}) "worker-1"
         (fun _ => Ok tt) Samples.unresolvable 0 "nowhere.invalid" []
       = Some (Ok tt, []).
Proof.
  eassert (Session.scrape_website_async Samples.unresolvable 0 "nowhere.invalid"
           = Some (Ok _, _)) as Hrun by (vm_compute; reflexivity).
  eexists _, _. split; [exact Hrun|].
  exact (blank_html_is_not_published
           (fun r => Ok {["domain" := Session.domain r]}) "worker-1"
           (fun _ => Ok tt) _ _ _ _ _ [] Hrun (or_introl eq_refl)).
Defined.

(** A session that completes with HTML is published, with the worker's
    name added. *)
Example completed_scrape_is_published :
  Dispatcher.process_domain
    (fun r => Ok {["domain" := Session.domain r]}) "worker-1"
    (fun _ => Ok tt) Samples.calm 0 "example.com" []
  = Some (Ok tt, [<["processor" := "worker-1"]>
                    {["domain" := "https://example.com"]}]).
Proof. vm_compute. reflexivity. Qed.

(** ** The obfuscation heuristic: which bodies can be flagged *)

Section ObfuscationBounds.

Import Obfuscation Samples.

(** [len(js_code)] *)
Local Abbreviation code_length js := (Z.of_nat (List.length (list_ascii_of_string js))).

Lemma string_length_list (js : string) :
  List.length (list_ascii_of_string js) = String.length js.
Proof. induction js as [|c js IH]; [reflexivity|]. cbn. f_equal. exact IH. Qed.

(** [int(len * 0.25)] is the quarter of the length, rounded down. *)
Lemma sample_length_quarter (js : string) :
  sample_length js = code_length js / 4.
Proof.
  unfold sample_length, py_int.
  set (n := code_length js). assert (0 <= n) as Hn by (unfold n; lia).
  assert (Qle_bool 0 (inject_Z n * (25 # 100)) = true) as ->.
  { apply Qle_bool_iff. unfold Qle. cbn. lia. }
  unfold Qfloor. cbn. change (Z.pos (1 * 100)) with (4 * 25).
  apply Z.div_mul_cancel_r; lia.
Qed.

(** The comparison of a density with [0.05], on integers. *)
Lemma density_le_threshold (hex_count denom : Z) :
  0 < denom ->
  Qle_bool (inject_Z hex_count / inject_Z denom) (5 # 100)
  = (20 * hex_count <=? denom).
Proof.
  intros Hd. destruct denom as [|p|p]; try lia.
  unfold Qle_bool, Qdiv, Qmult, Qinv, inject_Z. cbn.
  change (Z.pos (1 * p)) with (Z.pos p).
  destruct (Z.leb_spec (hex_count * 1 * 100) (5 * Z.pos p));
    destruct (Z.leb_spec (20 * hex_count) (Z.pos p)); try reflexivity; lia.
Qed.

Lemma count_matches_falls_through (matches : list (nat * nat)) :
  forall (hex_count threshold denom : Z) (density_threshold : Q),
    hex_count + Z.of_nat (List.length matches) <= threshold ->
    count_matches matches hex_count threshold denom density_threshold
    = Ok (Exhausted (hex_count + Z.of_nat (List.length matches))).
Proof.
  induction matches as [|m rest IH]; intros h t d dt Hle.
  - cbn. f_equal. f_equal. lia.
  - cbn [count_matches]. rewrite length_cons in Hle |- *.
    destruct (Z.ltb_spec t (h + 1)) as [Hgt|Hngt]; [lia|].
    rewrite IH by lia. f_equal. f_equal. lia.
Qed.

Lemma count_matches_total (matches : list (nat * nat)) :
  forall (hex_count threshold denom : Z) (density_threshold : Q),
    denom <> 0 ->
    exists exit, count_matches matches hex_count threshold denom density_threshold
                 = Ok exit.
Proof.
  induction matches as [|m rest IH]; intros h t d dt Hd; [eexists; reflexivity|].
  cbn [count_matches]. destruct (t <? h + 1).
  - unfold truediv. destruct (Z.eqb_spec d 0); [contradiction|]. eexists. reflexivity.
  - apply IH. exact Hd.
Qed.

(** The first loop and the test after it: at most five tokens in the
    prefix, at a density of at most [0.05], end the function with
    [False]. *)
Lemma sparse_prefix_negative (js : string) :
  0 < sample_length js ->
  prefix_tokens js <= 5 ->
  20 * prefix_tokens js <= sample_length js ->
  detect_obfuscation js = Ok false.
Proof.
  intros Hpos Htok Hsparse.
  unfold detect_obfuscation, detect_obfuscation_with.
  destruct (Z.eqb_spec (code_length js) 0) as [Hz|Hnz].
  - reflexivity.
  - fold (sample_length js). fold (sample_code js).
    unfold prefix_tokens in Htok, Hsparse.
    rewrite count_matches_falls_through by lia. cbn [obind].
    unfold truediv. destruct (Z.eqb_spec (sample_length js) 0); [lia|]. cbn [obind].
    rewrite density_le_threshold by assumption.
    destruct (Z.leb_spec (20 * (0 + Z.of_nat (List.length (finditer (sample_code js)))))
                (sample_length js)); [reflexivity|lia].
Qed.

Lemma six_tokens_long_prefix_negative (js : string) :
  6 <= prefix_tokens js ->
  120 <= sample_length js ->
  detect_obfuscation js = Ok false.
Proof.
  intros Htok Hlong. rewrite detect_obfuscation_six_tokens by assumption.
  unfold Qgtb. rewrite density_le_threshold by lia.
  destruct (Z.leb_spec (20 * 6) (sample_length js)); [reflexivity|lia].
Qed.

Lemma sample_length_bounds (js : string) :
  4 * sample_length js <= Z.of_nat (String.length js) < 4 * sample_length js + 4.
Proof.
  rewrite sample_length_quarter, string_length_list.
  pose proof (Z.div_mod (Z.of_nat (String.length js)) 4 ltac:(lia)).
  pose proof (Z.mod_pos_bound (Z.of_nat (String.length js)) 4 ltac:(lia)). lia.
Qed.

(** X1: the early exit: when the first quarter of a body of four or more
    characters holds at most five hexadecimal literals, at a density of at
    most 0.05, [detect_obfuscation] returns [False] without looking at the
    other three quarters. *)
Theorem detect_obfuscation_early_exit (js : string) :
  (4 <= String.length js)%nat ->
  prefix_tokens js <= 5 ->
  20 * prefix_tokens js <= sample_length js ->
  detect_obfuscation js = Ok false.
Proof.
  intros Hlen Htok Hsparse. pose proof (sample_length_bounds js).
  apply sparse_prefix_negative; [lia|assumption..].
Qed.

Lemma detect_obfuscation_early_exit_witness :
  (4 <= String.length (blanks 100 +:+ copies 60 "0xff,"))%nat
  /\ prefix_tokens (blanks 100 +:+ copies 60 "0xff,") <= 5
  /\ detect_obfuscation (blanks 100 +:+ copies 60 "0xff,") = Ok false.
Proof.
  assert (4 <= String.length (blanks 100 +:+ copies 60 "0xff,"))%nat as H1
    by (vm_compute; lia).
  assert (prefix_tokens (blanks 100 +:+ copies 60 "0xff,") <= 5) as H2
    by (vm_compute; discriminate).
  split; [exact H1|]. split; [exact H2|].
  apply (detect_obfuscation_early_exit _ H1 H2). vm_compute. discriminate.
Defined.

(** X2: no body of 480 or more characters is ever flagged: its prefix has at
    least 120 characters, so neither six tokens (6 / 120 = 0.05) nor fewer
    give a density above 0.05. *)
Theorem detect_obfuscation_long_body_negative (js : string) :
  (480 <= String.length js)%nat ->
  detect_obfuscation js = Ok false.
Proof.
  intros Hlen. pose proof (sample_length_bounds js).
  destruct (Z.le_gt_cases (prefix_tokens js) 5).
  - apply sparse_prefix_negative; lia.
  - apply six_tokens_long_prefix_negative; lia.
Qed.

Lemma detect_obfuscation_long_body_negative_witness :
  (480 <= String.length (copies 120 "0xff"))%nat
  /\ detect_obfuscation (copies 120 "0xff") = Ok false.
Proof.
  assert (480 <= String.length (copies 120 "0xff"))%nat as H by (vm_compute; lia).
  exact (conj H (detect_obfuscation_long_body_negative _ H)).
Defined.

(** On the empty body and on every body of four or more characters the
    function returns. *)
Lemma detect_obfuscation_returns (js : string) :
  (String.length js = 0 \/ 4 <= String.length js)%nat ->
  exists flag, detect_obfuscation js = Ok flag.
Proof.
  intros Hlen. pose proof (sample_length_bounds js) as Hsl.
  unfold detect_obfuscation, detect_obfuscation_with.
  destruct (Z.eqb_spec (code_length js) 0) as [Hz|Hnz]; [eexists; reflexivity|].
  rewrite string_length_list in Hnz.
  fold (sample_length js). fold (sample_code js).
  assert (sample_length js <> 0) as Hs by lia.
  destruct (count_matches_total (finditer (sample_code js)) 0 5 (sample_length js)
              (5 # 100) Hs) as ([flag|h] & ->); cbn [obind]; [eexists; reflexivity|].
  unfold truediv at 1. destruct (Z.eqb_spec (sample_length js) 0); [contradiction|].
  cbn [obind]. destruct (Qle_bool _ _); [eexists; reflexivity|].
  assert (code_length js <> 0) as Hc by (rewrite string_length_list; exact Hnz).
  destruct (count_matches_total
              (finditer (skipn (Z.to_nat (sample_length js)) (list_ascii_of_string js)))
              h 5 (code_length js) (5 # 100) Hc) as ([flag|h'] & ->);
    cbn [obind]; [eexists; reflexivity|].
  unfold truediv. destruct (Z.eqb_spec (code_length js) 0); [contradiction|].
  eexists. reflexivity.
Qed.

(** X3: the only exception [detect_obfuscation] raises is [ZeroDivisionError],
    and it raises it on bodies of one to three characters only. *)
Theorem detect_obfuscation_raises_only_on_short (js : string) (e : exn) :
  detect_obfuscation js = Raise e ->
  e = ZeroDivisionError /\ (1 <= String.length js <= 3)%nat.
Proof.
  intros Hraise.
  destruct (Nat.eq_dec (String.length js) 0%nat) as [H0|Hn0];
    [|destruct (Nat.le_gt_cases 4 (String.length js)) as [H4|Hshort]].
  - destruct (detect_obfuscation_returns js (or_introl H0)) as (flag & Hok). congruence.
  - destruct (detect_obfuscation_returns js (or_intror H4)) as (flag & Hok). congruence.
  - split; [|lia].
    destruct js as [|c1 [|c2 [|c3 [|c4 rest]]]]; cbn in Hn0, Hshort; try lia;
      cbv in Hraise; congruence.
Qed.

Lemma detect_obfuscation_raises_only_on_short_witness :
  ZeroDivisionError = ZeroDivisionError /\ (1 <= String.length "{}" <= 3)%nat.
Proof.
  apply (detect_obfuscation_raises_only_on_short "{}" ZeroDivisionError).
  reflexivity.
Defined.

(** X4: a positive flag needs a body shorter than 480 characters with a
    hexadecimal literal in its first quarter. *)
Theorem detect_obfuscation_positive_needs (js : string) :
  detect_obfuscation js = Ok true ->
  (String.length js < 480)%nat /\ 1 <= prefix_tokens js.
Proof.
  intros Hpos. pose proof (sample_length_bounds js) as Hsl. split.
  - destruct (Nat.le_gt_cases 480 (String.length js)) as [Hlong|Hshort]; [|exact Hshort].
    pose proof Hsl.
    destruct (Z.le_gt_cases (prefix_tokens js) 5).
    + rewrite sparse_prefix_negative in Hpos by lia. discriminate.
    + rewrite six_tokens_long_prefix_negative in Hpos by lia. discriminate.
  - destruct (Z.le_gt_cases 1 (prefix_tokens js)) as [H1|H0]; [exact H1|].
    assert (prefix_tokens js = 0) as Hzero by (unfold prefix_tokens in *; lia).
    destruct (Nat.le_gt_cases 4 (String.length js)) as [H4|Hshort].
    + rewrite sparse_prefix_negative in Hpos by lia. discriminate.
    + destruct js as [|c1 [|c2 [|c3 [|c4 rest]]]]; cbn in Hshort; try lia;
        cbv in Hpos; discriminate.
Qed.

Lemma detect_obfuscation_positive_needs_witness :
  (String.length six_literals < 480)%nat /\ 1 <= prefix_tokens six_literals.
Proof.
  apply (detect_obfuscation_positive_needs six_literals). vm_compute. reflexivity.
Defined.

End ObfuscationBounds.

(** ** The request filter: every decision and the set it builds *)

Section FilterDecisions.

Import Filter Samples.

Implicit Types (request : Request) (loaded : gset string).

(** The four branches of [handle_request] in one: a request is let
    through exactly when it passes both blocklists and its URL is new. *)
Lemma handle_request_decides request loaded :
  handle_request request loaded
  = if passes_blocklists request && negb (bool_decide (url request ∈ loaded))
    then (Continue, {[url request]} ∪ loaded)
    else (Abort, loaded).
Proof.
  unfold handle_request, passes_blocklists.
  destruct (existsb _ blocked_resource_types); [reflexivity|].
  destruct (existsb _ blocked_domains); [reflexivity|].
  destruct (bool_decide _); reflexivity.
Qed.

Lemma handle_request_set request loaded (u : string) :
  u ∈ (handle_request request loaded).2
  <-> u ∈ loaded \/ (url request = u /\ passes_blocklists request = true).
Proof.
  rewrite handle_request_decides.
  destruct (passes_blocklists request); cbn [andb].
  - destruct (bool_decide_reflect (url request ∈ loaded)) as [Hin|Hnew]; cbn [negb snd].
    + split; [auto|]. intros [H | [<- _]]; assumption.
    + rewrite elem_of_union, elem_of_singleton. split.
      * intros [-> | H]; auto.
      * intros [H | [<- _]]; auto.
  - cbn [snd]. split; [auto|]. intros [H | [_ H]]; [assumption|discriminate].
Qed.

(** The set of already requested resources after a session's requests:
    the URLs it held before and the URLs of the requests that pass both
    blocklists, no others. *)
Lemma handle_requests_set (requests : list Request) :
  forall loaded (u : string),
    u ∈ (handle_requests requests loaded).2
    <-> u ∈ loaded
        \/ exists request,
             request ∈ requests /\ url request = u
             /\ passes_blocklists request = true.
Proof.
  induction requests as [|r rest IH]; intros loaded u.
  - cbn. split; [auto|]. intros [H | (request & Hin & _)]; [assumption|].
    inversion Hin.
  - rewrite handle_requests_cons. cbn [snd]. rewrite IH, handle_request_set. split.
    + intros [[H | [Hu Hp]] | (request & Hin & Hu & Hp)].
      * left. assumption.
      * right. exists r. split; [apply list_elem_of_here|]. split; assumption.
      * right. exists request. split; [apply list_elem_of_further, Hin|].
        split; assumption.
    + intros [H | (request & Hin & Hu & Hp)]; [auto|].
      apply elem_of_cons in Hin as [-> | Hin]; [auto|].
      right. exists request. split; [assumption|]. split; assumption.
Qed.

(** X5: the dedup set of a session, which starts empty, holds exactly the
    URLs of the requests that passed both blocklists: a request aborted
    for its resource category or for a blocked substring never records its
    URL. *)
Theorem loaded_resources_are_passing_urls (requests : list Request) (u : string) :
  u ∈ (handle_requests requests ∅).2
  <-> exists request,
        request ∈ requests /\ url request = u /\ passes_blocklists request = true.
Proof.
  rewrite handle_requests_set. split; [|auto].
  intros [H | H]; [|exact H]. exfalso. exact (not_elem_of_empty u H).
Qed.

Lemma handle_requests_decision (requests : list Request) :
  forall loaded (i : nat) request,
    requests !! i = Some request ->
    (handle_requests requests loaded).1 !! i = Some Continue
    <-> passes_blocklists request = true
        /\ (url request ∉ loaded)
        /\ forall (k : nat) earlier,
             (k < i)%nat -> requests !! k = Some earlier ->
             url earlier = url request -> passes_blocklists earlier = false.
Proof.
  induction requests as [|r rest IH]; intros loaded i request Hi; [discriminate|].
  rewrite handle_requests_cons. cbn [fst]. destruct i as [|i].
  - injection Hi as ->. cbn [lookup list_lookup]. rewrite handle_request_decides.
    destruct (passes_blocklists request); cbn [andb].
    + destruct (bool_decide_reflect (url request ∈ loaded)) as [Hin|Hnew]; cbn [negb fst].
      * split; [discriminate|]. intros (_ & Hnew & _). contradiction.
      * split; [|reflexivity]. intros _. split; [reflexivity|].
        split; [assumption|]. intros k earlier Hk. lia.
    + cbn [fst]. split; [discriminate|]. intros (H & _). discriminate.
  - cbn in Hi. change ((?x :: ?l) !! S i) with (l !! i).
    rewrite (IH _ i request Hi). split.
    + intros (Hp & Hnew & Hearlier). split; [assumption|].
      assert ((url request ∉ loaded)
              /\ ~ (url r = url request /\ passes_blocklists r = true))
        as [Hl Hr].
      { split; intros H; apply Hnew, handle_request_set; auto. }
      split; [assumption|]. intros [|k] earlier Hk Hlk Hu.
      * injection Hlk as <-. destruct (passes_blocklists r); [|reflexivity].
        exfalso. apply Hr. auto.
      * apply (Hearlier k earlier); [lia|exact Hlk|exact Hu].
    + intros (Hp & Hnew & Hearlier). split; [assumption|]. split.
      * intros [H | [Hu Hpr]]%handle_request_set; [contradiction|].
        rewrite (Hearlier O r) in Hpr; [discriminate|lia|reflexivity|exact Hu].
      * intros k earlier Hk Hlk Hu. apply (Hearlier (S k) earlier); [lia|exact Hlk|exact Hu].
Qed.

(** X6: every decision of a session: a request is allowed exactly when it
    passes both blocklists and no earlier request for its URL did; every
    other request is aborted. *)
Theorem request_allowed_iff_first_passing (requests : list Request) (i : nat) request :
  requests !! i = Some request ->
  ((handle_requests requests ∅).1 !! i = Some Continue
   <-> passes_blocklists request = true
       /\ forall (k : nat) earlier,
            (k < i)%nat -> requests !! k = Some earlier ->
            url earlier = url request -> passes_blocklists earlier = false)
  /\ ((handle_requests requests ∅).1 !! i = Some Continue
      \/ (handle_requests requests ∅).1 !! i = Some Abort).
Proof.
  intros Hi. split.
  - rewrite (handle_requests_decision requests ∅ i request Hi). split.
    + intros (Hp & _ & He). split; assumption.
    + intros (Hp & He). split; [assumption|]. split; [apply not_elem_of_empty|assumption].
  - assert (is_Some ((handle_requests requests ∅).1 !! i)) as [d Hd].
    { apply lookup_lt_is_Some. apply lookup_lt_Some in Hi.
      clear -Hi. revert i Hi. generalize (∅ : gset string).
      induction requests as [|r rest IH]; intros loaded i Hi; [cbn in Hi; lia|].
      rewrite handle_requests_cons. cbn [fst length] in *. destruct i; [lia|].
      apply -> Nat.succ_lt_mono. apply IH. lia. }
    rewrite Hd. destruct d; auto.
Qed.

Lemma request_allowed_iff_first_passing_witness :
  ((handle_requests [logo; api; app_js; api] ∅).1 !! 3%nat = Some Continue
   <-> passes_blocklists api = true
       /\ forall (k : nat) earlier,
            (k < 3)%nat -> [logo; api; app_js; api] !! k = Some earlier ->
            url earlier = url api -> passes_blocklists earlier = false)
  /\ ((handle_requests [logo; api; app_js; api] ∅).1 !! 3%nat = Some Continue
      \/ (handle_requests [logo; api; app_js; api] ∅).1 !! 3%nat = Some Abort).
Proof.
  apply (request_allowed_iff_first_passing [logo; api; app_js; api] 3 api).
  reflexivity.
Defined.

(** The number of requests let through. *)
Lemma handle_requests_count (requests : list Request) :
  forall loaded,
    size (handle_requests requests loaded).2
    = (size loaded
       + List.length (List.filter (fun d => match d with Continue => true | Abort => false end)
                        (handle_requests requests loaded).1))%nat.
Proof.
  induction requests as [|r rest IH]; intros loaded; [cbn; lia|].
  rewrite handle_requests_cons. cbn [fst snd]. rewrite IH.
  rewrite handle_request_decides.
  destruct (passes_blocklists r); cbn [andb].
  - destruct (bool_decide_reflect (url r ∈ loaded)) as [Hin|Hnew];
      cbn [negb fst snd List.filter List.length]; [lia|].
    rewrite size_union by (apply disjoint_singleton_l; exact Hnew).
    rewrite size_singleton. lia.
  - cbn [fst snd List.filter List.length]. lia.
Qed.

(** X7: a session lets through as many requests as its dedup set holds URLs
    in the end: one per distinct URL that passed the blocklists. *)
Theorem allowed_requests_are_distinct_urls (requests : list Request) :
  List.length (List.filter (fun d => match d with Continue => true | Abort => false end)
                 (handle_requests requests ∅).1)
  = size (handle_requests requests ∅).2.
Proof.
  rewrite handle_requests_count, size_empty. reflexivity.
Qed.

End FilterDecisions.

(** ** Response capture *)

Section CaptureFacts.

Import Capture Samples.

Lemma capture_scripts_async_lists (response : Response)
    (script_urls script_contents : list string) :
  (capture_scripts_async response script_urls script_contents).2
  = match captured_pair response with
    | Some (u, js_code) => (script_urls ++ [u], script_contents ++ [js_code])%list
    | None => (script_urls, script_contents)
    end.
Proof.
  unfold capture_scripts_async, captured_pair.
  destruct (_ && _); [|reflexivity].
  destruct (text response) as [js_code|e]; [reflexivity|].
  destruct (is_Exception e); reflexivity.
Qed.

Lemma capture_all_cons (response : Response) (rest : list Response)
    (script_urls script_contents : list string) :
  capture_all (response :: rest) script_urls script_contents
  = let lists := (capture_scripts_async response script_urls script_contents).2 in
    ((capture_scripts_async response script_urls script_contents).1
       :: (capture_all rest lists.1 lists.2).1,
     (capture_all rest lists.1 lists.2).2).
Proof.
  cbn [capture_all].
  destruct (capture_scripts_async response script_urls script_contents)
    as [o [urls contents]].
  cbn [fst snd]. destruct (capture_all rest urls contents) as [os lists]. reflexivity.
Qed.

Lemma capture_all_lists (responses : list Response) :
  forall script_urls script_contents : list string,
    (capture_all responses script_urls script_contents).2
    = ((script_urls ++ (omap captured_pair responses).*1)%list,
       (script_contents ++ (omap captured_pair responses).*2)%list).
Proof.
  induction responses as [|response rest IH]; intros script_urls script_contents.
  - cbn. rewrite !app_nil_r. reflexivity.
  - rewrite capture_all_cons. cbn zeta. cbn [snd].
    rewrite IH, capture_scripts_async_lists. cbn [omap list_omap].
    destruct (captured_pair response) as [[u js_code]|]; cbn [fst snd fmap list_fmap].
    + rewrite <- !app_assoc. reflexivity.
    + reflexivity.
Qed.

Lemma capture_all_outcomes (responses : list Response) :
  forall script_urls script_contents : list string,
    Forall (fun o => o = Ok tt \/ exists e, o = Raise e /\ is_Exception e = false)
      (capture_all responses script_urls script_contents).1.
Proof.
  induction responses as [|response rest IH]; intros script_urls script_contents.
  - constructor.
  - rewrite capture_all_cons. cbn zeta. cbn [fst]. constructor; [|apply IH].
    unfold capture_scripts_async. destruct (_ && _); [|left; reflexivity].
    destruct (text response) as [js_code|e]; [left; reflexivity|].
    destruct (is_Exception e) eqn:He; [left; reflexivity|].
    right. exists e. split; [reflexivity|exact He].
Qed.

(** X8: the two lists of a session stay in step: started empty, they end
    with the same length, and zipped they are the (URL, body) pairs of
    exactly the responses with [javascript] in the content type, status
    200 and a readable body, in the order the tasks ran.  Stylesheets,
    non-200 answers and unreadable bodies add nothing, and no task lets an
    [Exception] out. *)
Theorem captured_scripts_stay_paired (responses : list Response) :
  let run := capture_all responses [] [] in
  List.length run.2.1 = List.length run.2.2
  /\ zip run.2.1 run.2.2 = omap captured_pair responses
  /\ Forall (fun o => o = Ok tt \/ exists e, o = Raise e /\ is_Exception e = false)
       run.1.
Proof.
  cbn zeta. split; [|split].
  - rewrite capture_all_lists. cbn [fst snd app]. rewrite !length_fmap. reflexivity.
  - rewrite capture_all_lists. cbn [fst snd app]. apply zip_fst_snd.
  - apply capture_all_outcomes.
Qed.

Example capture_four_responses :
  capture_all [script_response; stylesheet_response; missing_script_response;
               unreadable_script_response] [] []
  = ([Ok tt; Ok tt; Ok tt; Ok tt],
     (["https://example.com/js/app.js"], ["var a = 1;"])).
Proof. reflexivity. Qed.

End CaptureFacts.

(** ** The scrape session: what each exit path reports *)

Section SessionOutcomes.

Import Session Samples.
Local Open Scope session_scope.

Lemma feedback_events_log (ev : event) (st : locals) :
  feedback_events (Vars.trace (log ev st))
  = (feedback_events (Vars.trace st)
     ++ if is_update_load_time ev then [ev] else [])%list.
Proof.
  unfold feedback_events, log. cbn [Vars.trace Vars.set_trace].
  rewrite List.filter_app. cbn [List.filter].
  destruct (is_update_load_time ev); reflexivity.
Qed.

Lemma close_events_log (ev : event) (st : locals) :
  close_events (Vars.trace (log ev st))
  = (close_events (Vars.trace st) ++ if is_close ev then [ev] else [])%list.
Proof.
  unfold close_events, log. cbn [Vars.trace Vars.set_trace].
  rewrite List.filter_app. cbn [List.filter].
  destruct (is_close ev); reflexivity.
Qed.

(** Side conditions of the [preserves] rules for the observations of this
    section. *)
Ltac same_view :=
  intros; unfold flag_view, result_view, close_view;
  rewrite ?feedback_events_log, ?close_events_log; cbn; rewrite ?app_nil_r;
  reflexivity.

Ltac keeps :=
  repeat first
    [ apply preserves_ret
    | apply preserves_gets
    | apply preserves_lift
    | apply preserves_modify; same_view
    | apply preserves_emit; same_view
    | apply preserves_call; same_view
    | apply preserves_call_at; same_view
    | apply preserves_content_poll; same_view
    | apply preserves_scan_scripts; same_view
    | apply preserves_if
    | apply preserves_bind; [|intros ?]
    | apply preserves_async_with
    | apply preserves_try_finally ].

(** *** The success flag of the proxy feedback *)

Lemma try_body_keeps_flag (w : World) (a : Args) (fuel : nat) (url : string) :
  preserves flag_view (try_body w a fuel url).
Proof.
  unfold try_body, open_page, navigate, collect_scripts. keeps.
Qed.

Lemma guarded_body_flag (w : World) (a : Args) (fuel : nat) (url domain : string)
    (resolved_ip : option (list string)) (st st' : locals)
    (o : outcome (option ScrapeResult)) :
  try_except (try_body w a fuel url ;; ret None)
             (handlers url domain resolved_ip) st = Some (o, st') ->
  Vars.proxy_success st = true ->
  feedback_events (Vars.trace st') = feedback_events (Vars.trace st)
  /\ match o with
     | Ok (Some r) => Vars.proxy_success st' = reports_success r
     | Ok None => Vars.proxy_success st' = true
     | Raise _ => True
     end.
Proof.
  unfold try_except, bind. intros Hrun Hflag.
  destruct (try_body w a fuel url st) as [[ob sb]|] eqn:Hbody; [|discriminate].
  pose proof (preserves_run _ _ _ _ _ (try_body_keeps_flag w a fuel url) Hbody)
    as Hview.
  unfold flag_view in Hview. injection Hview as Hps Hev. rewrite Hflag in Hps.
  destruct ob as [[]|e].
  - cbn in Hrun. injection Hrun as <- <-. split; assumption.
  - destruct e; cbn in Hrun; injection Hrun as <- <-; split;
      first [exact Hev | exact Hps | reflexivity | exact I].
Qed.

Lemma finalizer_feedback (w : World) (st : locals) :
  exists o st',
    finalizer w st = Some (o, st')
    /\ feedback_events (Vars.trace st')
       = (feedback_events (Vars.trace st)
          ++ [EvUpdateLoadTime (get_proxy w) (Vars.proxy_success st)])%list.
Proof.
  unfold finalizer. rewrite bind_gets, bind_call.
  set (ev := EvUpdateLoadTime _ _).
  assert (feedback_events (Vars.trace (log ev st))
          = (feedback_events (Vars.trace st) ++ [ev])%list) as Hone
    by (rewrite feedback_events_log; reflexivity).
  destruct (update_load_time w) as [[]|e].
  - assert (preserves (fun s => feedback_events (Vars.trace s)) (teardown w)) as Ht.
    { apply teardown_preserves. intros ev' s Hu _ _.
      rewrite feedback_events_log, Hu. apply app_nil_r. }
    destruct (Ht (log ev st)) as (o & st' & Hrun & Hsame).
    exists o, st'. split; [exact Hrun|]. cbn beta in Hsame. congruence.
  - exists (Raise e), (log ev st). split; [reflexivity|exact Hone].
Qed.

(** X9: past the DNS gate a session reports to the proxy pool exactly once,
    for the proxy it drew, and with a success flag that is [False] for a
    Failed result only: complete, Timeout and Cancelled results all count
    as a success of the proxy. *)
Theorem proxy_feedback_flag (w : World) (a : Args) (fuel : nat) (url : string)
    (r : ScrapeResult) (st : locals) :
  scrape_website_async_with w a fuel url = Some (Ok r, st) ->
  status_code r <> DNS_Error ->
  feedback_events (Vars.trace st)
  = [EvUpdateLoadTime (get_proxy w) (reports_success r)].
Proof.
  unfold scrape_website_async_with, scrape, emit.
  rewrite bind_modify, bind_call. unfold dns_resolve.
  destruct (resolver_resolve w _) as [[|ip ips]| | | |e];
    try (cbn; intros H Hs; injection H as <- <-; contradiction Hs; reflexivity);
    [|discriminate].
  cbn [not_ips]. set (st0 := log _ _). unfold bind at 1.
  destruct (try_statement _ _ _ _ _ _ st0) as [[o s2]|] eqn:Hts; [|discriminate].
  pose proof (try_statement_returns _ _ _ _ _ _ _ _ _ Hts) as Hshape.
  unfold try_statement, try_finally in Hts.
  destruct (try_except _ _ st0) as [[o1 s1]|] eqn:Hguard; [|discriminate].
  apply guarded_body_flag in Hguard as [Hev Hflag]; [|reflexivity].
  destruct (finalizer_feedback w s1) as (o2 & s2' & Hfin & Hev2).
  rewrite Hfin in Hts. rewrite Hev in Hev2. cbn in Hev2.
  destruct o2 as [[]|e2]; injection Hts as <- <-; [|discriminate].
  destruct o1 as [[r1|]|e1]; cbn; intros H Hs; [| |discriminate];
    injection H as <- <-; rewrite Hev2, Hflag; [reflexivity|].
  unfold reports_success. cbn. rewrite Hshape. reflexivity.
Qed.

Lemma proxy_feedback_flag_witness :
  exists r st,
    scrape_website_async_with serves_tiny_script default_args 0 "example.com"
    = Some (Ok r, st)
    /\ status_code r = Failed
    /\ feedback_events (Vars.trace st) = [EvUpdateLoadTime "10.0.0.1:8080" false].
Proof.
  eassert (scrape_website_async_with serves_tiny_script default_args 0 "example.com"
           = Some (Ok _, _)) as Hrun by (vm_compute; reflexivity).
  eexists _, _. split; [exact Hrun|]. split; [reflexivity|].
  exact (proxy_feedback_flag _ _ _ _ _ _ Hrun ltac:(discriminate)).
Defined.

(** *** The resolved addresses *)

(** X10: every result with status complete, Timeout or Failed carries the
    addresses the DNS pre-check found, as a non-empty list. *)
Theorem resolved_ip_is_reported (w : World) (a : Args) (fuel : nat) (url : string)
    (r : ScrapeResult) (st : locals) :
  scrape_website_async_with w a fuel url = Some (Ok r, st) ->
  status_code r = complete \/ status_code r = Timeout \/ status_code r = Failed ->
  exists address addresses,
    resolver_resolve w (urlparse_netloc w (with_scheme url))
    = Answer (address :: addresses)
    /\ ip r = Some (address :: addresses).
Proof.
  unfold scrape_website_async_with, scrape, emit.
  rewrite bind_modify, bind_call. unfold dns_resolve.
  destruct (resolver_resolve w _) as [[|address addresses]| | | |e];
    try (cbn; intros H Hs; injection H as <- <-; cbn in Hs;
         destruct Hs as [Hs | [Hs | Hs]]; discriminate);
    [|discriminate].
  cbn [not_ips]. unfold bind at 1.
  destruct (try_statement _ _ _ _ _ _ _) as [[[[r'|]|e] s1]|] eqn:Hts;
    [| |discriminate..]; apply try_statement_returns in Hts;
    cbn; intros H Hs; injection H as <- <-; exists address, addresses;
    (split; [reflexivity|]); [|reflexivity].
  destruct Hts as [-> | [[s ->] | (e & s & ->)]]; [|reflexivity..].
  cbn in Hs. destruct Hs as [Hs | [Hs | Hs]]; discriminate.
Qed.

Lemma resolved_ip_is_reported_witness :
  exists r st address addresses,
    scrape_website_async_with selector_times_out default_args 0 "example.com"
    = Some (Ok r, st)
    /\ status_code r = Timeout
    /\ resolver_resolve selector_times_out
         (urlparse_netloc selector_times_out (with_scheme "example.com"))
       = Answer (address :: addresses)
    /\ ip r = Some (address :: addresses).
Proof.
  eassert (scrape_website_async_with selector_times_out default_args 0 "example.com"
           = Some (Ok _, _)) as Hrun by (vm_compute; reflexivity).
  destruct (resolved_ip_is_reported _ _ _ _ _ _ Hrun (or_intror (or_introl eq_refl)))
    as (address & addresses & Hdns & Hip).
  eexists _, _, address, addresses. split; [exact Hrun|].
  split; [reflexivity|]. split; assumption.
Defined.

(** *** Which exceptions leave a session *)

Lemma guarded_body_raises (w : World) (a : Args) (fuel : nat) (url domain : string)
    (resolved_ip : option (list string)) (st st' : locals) (e : exn) :
  try_except (try_body w a fuel url ;; ret None)
             (handlers url domain resolved_ip) st = Some (Raise e, st') ->
  exists msg, e = BaseException msg.
Proof.
  unfold try_except, bind.
  destruct (try_body w a fuel url st) as [[[[]|e'] sb]|]; [discriminate| |discriminate].
  destruct e'; cbn; intros H; try discriminate.
  injection H as <- <-. eexists. reflexivity.
Qed.

(** With a quiet teardown the [finally] clause ends normally. *)
Lemma finalizer_returns (w : World) (st st' : locals) (o : outcome unit) :
  teardown_quiet w ->
  finalizer w st = Some (o, st') ->
  o = Ok tt.
Proof.
  intros (Hu & Hc & Hp & Hb). unfold finalizer, teardown.
  rewrite bind_gets, bind_call, Hu.
  destruct st as [ps rd ho jf su sc hc sts br cx pg ui ci ti pc cc tr].
  cbv [try_except bind gets call emit modify lift ret]. cbn.
  destruct cx; cbn;
    [destruct (context_close w) as [[]|e] eqn:Hclose; cbn;
     [|rewrite (Hc e eq_refl); cbn]|];
    destruct pg; cbn; rewrite ?Hp; cbn;
    destruct br; cbn; rewrite ?Hb; cbn;
    intros H; injection H as <- <-; reflexivity.
Qed.

(** X11: from the [try] statement on, a session whose teardown is quiet
    ([update_load_time], [page.close()] and [browser.close()] return,
    [context.close()] returns or raises an [Exception]) always ends, for
    every behaviour of the rendering engine.  The statement returns the
    dict of one of its [except] clauses, or falls through to the final
    [return] with [status_code] complete, unless a non-[Exception] other
    than [CancelledError] was raised inside the [try]: cancellation,
    timeouts and every [Exception] become results. *)
Theorem try_statement_ends_when_teardown_quiet (w : World) (a : Args) (fuel : nat)
    (url domain : string) (resolved_ip : option (list string)) (st : locals) :
  teardown_quiet w ->
  exists o st',
    try_statement w a fuel url domain resolved_ip st = Some (o, st')
    /\ ((exists r, o = Ok (Some r) /\ from_except_clause url domain resolved_ip r)
        \/ (o = Ok None /\ Vars.status_code st' = complete)
        \/ (exists msg, o = Raise (BaseException msg))).
Proof.
  intros Hquiet.
  destruct (try_statement_once w a fuel url domain resolved_ip st)
    as (o & s2 & Hts & _).
  exists o, s2. split; [exact Hts|].
  pose proof (try_statement_returns _ _ _ _ _ _ _ _ _ Hts) as Hshape.
  unfold try_statement, try_finally in Hts.
  destruct (try_except _ _ st) as [[o1 s1]|] eqn:Hguard; [|discriminate].
  destruct (finalizer w s1) as [[o2 s2']|] eqn:Hfin; [|discriminate].
  rewrite (finalizer_returns _ _ _ _ Hquiet Hfin) in Hts. injection Hts as <- <-.
  destruct o1 as [[r|]|e].
  - left. exists r. split; [reflexivity|exact Hshape].
  - right. left. split; [reflexivity|exact Hshape].
  - apply guarded_body_raises in Hguard as (msg & ->).
    right. right. eexists. reflexivity.
Qed.

Lemma try_statement_ends_when_teardown_quiet_witness :
  exists o st',
    try_statement context_close_fails default_args 3 "https://example.com"
      "example.com" (Some ["93.184.216.34"]) Vars.initial
    = Some (o, st')
    /\ ((exists r,
            o = Ok (Some r)
            /\ from_except_clause "https://example.com" "example.com"
                 (Some ["93.184.216.34"]) r)
        \/ (o = Ok None /\ Vars.status_code st' = complete)
        \/ (exists msg, o = Raise (BaseException msg))).
Proof.
  apply (try_statement_ends_when_teardown_quiet context_close_fails default_args 3
           "https://example.com" "example.com" (Some ["93.184.216.34"]) Vars.initial).
  unfold teardown_quiet. split; [reflexivity|]. split; [|split; reflexivity].
  intros e He. injection He as <-. reflexivity.
Defined.

(** *** Whole runs *)

Lemma bind_assoc {A B C} (m : M A) (k : A -> M B) (h : B -> M C) (st : locals) :
  bind (bind m k) h st = bind m (fun x => bind (k x) h) st.
Proof. unfold bind. destruct (m st) as [[[x|e] st1]|]; reflexivity. Qed.

Lemma scan_scripts_run (script_contents : list string) (st : locals) :
  scan_scripts script_contents st
  = Some match scan_flag script_contents with
         | Ok true => (Ok tt, Vars.set_has_obfuscation true st)
         | Ok false => (Ok tt, st)
         | Raise e => (Raise e, st)
         end.
Proof.
  induction script_contents as [|script rest IH]; [reflexivity|].
  cbn [scan_scripts scan_flag]. unfold bind, lift.
  destruct (detect_obfuscation script) as [[|]|e]; [reflexivity|exact IH|reflexivity].
Qed.

(** One step of a run: reassociate, or perform the assignment, read or
    call at the head and rewrite with what is known of the world. *)
Ltac norm_state :=
  cbn [log app Vars.trace Vars.set_trace Vars.html_content Vars.set_html_content
       Vars.set_browser Vars.set_context Vars.set_page Vars.set_redirect_domain
       Vars.set_status_code Vars.set_script_urls Vars.set_script_contents
       Vars.set_js_filepaths Vars.set_has_obfuscation Vars.set_proxy_success
       Vars.set_unchanged_iterations Vars.set_changed_iterations
       Vars.set_total_iterations Vars.set_previous_content
       Vars.set_current_content Vars.initial Vars.proxy_success
       Vars.redirect_domain Vars.has_obfuscation Vars.js_filepaths
       Vars.script_urls Vars.script_contents Vars.status_code Vars.browser
       Vars.context Vars.page Vars.unchanged_iterations Vars.changed_iterations
       Vars.total_iterations Vars.previous_content Vars.current_content
       poll_entry].

Ltac known :=
  repeat match goal with
         | H : ?l = Ok _ |- context [?l] => rewrite H
         | H : ?l = Raise _ |- context [?l] => rewrite H
         end.

Ltac exec :=
  repeat (first [ rewrite bind_assoc
                | rewrite bind_modify
                | rewrite bind_gets
                | rewrite bind_call
                | rewrite bind_call_at
                | rewrite (bind_ok_run (content_poll _ _ _) _ _ _ _
                             (content_poll_idle _ _ _ _)) ];
          cbv beta; norm_state; known; cbv beta iota).

(** The state in which the guarded suite of a session that reaches the
    loop ends: the result variables are those of the first snapshot and of
    the captured scripts. *)
Lemma try_body_collects (w : World) (a : Args) (fuel : nat) (url html : string)
    (captured : list (string * string)) :
  reaches_content_poll w url html ->
  asyncio_gather w = Ok captured ->
  async_playwright_exit w = Ok tt ->
  exists st',
    try_body w a fuel (with_scheme url)
      (log (EvDnsResolve (urlparse_netloc w (with_scheme url)))
         (log EvGetProxy Vars.initial))
    = Some (match scan_flag (map snd captured) with
            | Ok _ => Ok tt
            | Raise e => Raise e
            end, st')
    /\ result_view st'
       = (match scan_flag (map snd captured) with
          | Ok flag => flag
          | Raise _ => false
          end,
          map (urlparse_path w) (map fst captured),
          is_redirected_to_different_domain w (with_scheme url) (page_url w),
          html, complete).
Proof.
  intros (_ & He & Hl & Hc & Hp & Hr & Ho & Hg & Hs & Hw) Hgather Hexit.
  unfold history_before_snapshot in Hs.
  unfold try_body, async_with, open_page, navigate, collect_scripts, try_finally.
  exec. rewrite scan_scripts_run.
  destruct (scan_flag (map snd captured)) as [[|]|e];
    (eexists; split; [reflexivity|reflexivity]).
Qed.

Lemma finalizer_quiet (w : World) (st : locals) :
  teardown_quiet w ->
  exists st', finalizer w st = Some (Ok tt, st') /\ result_view st' = result_view st.
Proof.
  intros Hquiet.
  assert (preserves result_view (finalizer w)) as Hfin
    by (apply finalizer_preserves; intros; reflexivity).
  destruct (Hfin st) as (o & st' & Hrun & Hview).
  rewrite (finalizer_returns _ _ _ _ Hquiet Hrun) in Hrun. eauto.
Qed.

(** X12: the result of a session in which nothing fails.  When the domain
    resolves, the page opens, the first snapshot is [html], the [body]
    selector shows up, the capture tasks deliver [captured] and no script
    makes [detect_obfuscation] raise, the session returns status complete
    with the resolved addresses, the first snapshot as [html_content], one
    script path per captured script, in order, the flag of the scan, and
    as [redirect_domain] the final host if it differs from the requested
    one.  A failing [context.close()] does not change this. *)
Theorem complete_scrape_result (w : World) (a : Args) (fuel : nat)
    (url html : string) (captured : list (string * string)) (flag : bool) :
  reaches_content_poll w url html ->
  asyncio_gather w = Ok captured ->
  scan_flag (map snd captured) = Ok flag ->
  async_playwright_exit w = Ok tt ->
  teardown_quiet w ->
  exists address addresses st,
    resolver_resolve w (urlparse_netloc w (with_scheme url))
    = Answer (address :: addresses)
    /\ scrape_website_async_with w a fuel url
       = Some (Ok {| domain := with_scheme url;
                     status_code := complete;
                     ip := Some (address :: addresses);
                     obfuscation := flag;
                     script_paths :=
                       str_of (map (fun p => urlparse_path w p.1) captured);
                     redirect_domain :=
                       is_redirected_to_different_domain w (with_scheme url)
                         (page_url w);
                     html_content := html;
                     error := None |}, st).
Proof.
  intros Hreach Hgather Hscan Hexit Hquiet.
  pose proof Hreach as ((address & addresses & Hdns) & _).
  destruct (try_body_collects w a fuel url html captured Hreach Hgather Hexit)
    as (sb & Hbody & Hview).
  rewrite Hscan in Hbody, Hview.
  destruct (finalizer_quiet w sb Hquiet) as (stf & Hfin & Hsame).
  exists address, addresses, stf. split; [exact Hdns|].
  unfold scrape_website_async_with, scrape, emit.
  rewrite bind_modify, bind_call. unfold dns_resolve. rewrite Hdns. cbn [not_ips].
  unfold bind at 1, try_statement, try_finally, try_except.
  rewrite (bind_ok_run _ _ _ _ _ Hbody). cbn [ret]. rewrite Hfin.
  cbn [bind gets ret id]. unfold final_result.
  rewrite Hview in Hsame. unfold result_view in Hsame.
  injection Hsame as -> -> -> -> ->. rewrite map_map. reflexivity.
Qed.

Lemma complete_scrape_result_witness :
  exists address addresses st,
    resolver_resolve serves_dense_script
      (urlparse_netloc serves_dense_script (with_scheme "example.com"))
    = Answer (address :: addresses)
    /\ scrape_website_async_with serves_dense_script default_args 0 "example.com"
       = Some (Ok {| domain := with_scheme "example.com";
                     status_code := complete;
                     ip := Some (address :: addresses);
                     obfuscation := true;
                     script_paths :=
                       str_of (map (fun p => urlparse_path serves_dense_script p.1)
                                 [("https://example.com/js/app.js", "var a = 1;");
                                  ("https://example.com/js/packed.js", six_literals)]);
                     redirect_domain :=
                       is_redirected_to_different_domain serves_dense_script
                         (with_scheme "example.com") (page_url serves_dense_script);
                     html_content := "<html><body>a</body></html>";
                     error := None |}, st).
Proof.
  apply (complete_scrape_result serves_dense_script default_args 0 "example.com"
           "<html><body>a</body></html>"
           [("https://example.com/js/app.js", "var a = 1;");
            ("https://example.com/js/packed.js", six_literals)] true).
  - unfold reaches_content_poll. split; [exists "93.184.216.34", []; reflexivity|].
    repeat split.
  - reflexivity.
  - vm_compute. reflexivity.
  - reflexivity.
  - unfold teardown_quiet. split; [reflexivity|]. split; [|split; reflexivity].
    intros e He. discriminate.
Defined.

(** X13: a timeout of the wait for the [body] selector.  The session
    returns status Timeout with the resolved addresses and the snapshot
    taken before the wait as [html_content]; no script path, no flag and
    no redirect are reported, since they are computed after the wait. *)
Theorem selector_timeout_keeps_snapshot (w : World) (a : Args) (fuel : nat)
    (url html msg : string) :
  takes_first_snapshot w url html ->
  page_wait_for_selector w = Raise (PlaywrightTimeoutError msg) ->
  async_playwright_exit w = Ok tt ->
  teardown_quiet w ->
  exists address addresses st,
    resolver_resolve w (urlparse_netloc w (with_scheme url))
    = Answer (address :: addresses)
    /\ scrape_website_async_with w a fuel url
       = Some (Ok {| domain := with_scheme url;
                     status_code := Timeout;
                     ip := Some (address :: addresses);
                     obfuscation := false;
                     script_paths := str_of [];
                     redirect_domain := None;
                     html_content := html;
                     error := Some "Timeout occurred." |}, st).
Proof.
  intros ((address & addresses & Hdns) & He & Hl & Hc & Hp & Hr & Ho & Hg & Hs)
    Hwait Hexit Hquiet.
  unfold history_before_snapshot in Hs.
  assert (exists sb,
             try_body w a fuel (with_scheme url)
               (log (EvDnsResolve (urlparse_netloc w (with_scheme url)))
                  (log EvGetProxy Vars.initial))
             = Some (Raise (PlaywrightTimeoutError msg), sb)
             /\ result_view sb = (false, [], None, html, Failed))
    as (sb & Hbody & Hview).
  { unfold try_body, async_with, open_page, navigate, try_finally. exec.
    eexists. split; reflexivity. }
  destruct (finalizer_quiet w sb Hquiet) as (stf & Hfin & _).
  exists address, addresses, stf. split; [exact Hdns|].
  unfold scrape_website_async_with, scrape, emit.
  rewrite bind_modify, bind_call. unfold dns_resolve. rewrite Hdns. cbn [not_ips].
  unfold bind at 1, try_statement, try_finally, try_except.
  unfold bind at 1. rewrite Hbody. cbn [handlers bind gets ret id]. rewrite Hfin.
  cbn [bind ret]. unfold timeout_result.
  unfold result_view in Hview. injection Hview as -> -> -> -> _. reflexivity.
Qed.

Lemma selector_timeout_keeps_snapshot_witness :
  exists address addresses st,
    resolver_resolve selector_times_out
      (urlparse_netloc selector_times_out (with_scheme "example.com"))
    = Answer (address :: addresses)
    /\ scrape_website_async_with selector_times_out default_args 0 "example.com"
       = Some (Ok {| domain := with_scheme "example.com";
                     status_code := Timeout;
                     ip := Some (address :: addresses);
                     obfuscation := false;
                     script_paths := str_of [];
                     redirect_domain := None;
                     html_content := "<html><body>a</body></html>";
                     error := Some "Timeout occurred." |}, st).
Proof.
  apply (selector_timeout_keeps_snapshot selector_times_out default_args 0
           "example.com" "<html><body>a</body></html>" "Timeout 12000ms exceeded.").
  - unfold takes_first_snapshot. split; [exists "93.184.216.34", []; reflexivity|].
    repeat split.
  - reflexivity.
  - reflexivity.
  - unfold teardown_quiet. split; [reflexivity|]. split; [|split; reflexivity].
    intros e He. discriminate.
Defined.

Lemma short_script_raises (body : string) :
  (1 <= String.length body <= 3)%nat ->
  detect_obfuscation body = Raise ZeroDivisionError.
Proof.
  intros [Hlo Hhi].
  destruct body as [|c1 [|c2 [|c3 [|c4 rest]]]]; cbn in Hlo, Hhi; try lia; reflexivity.
Qed.

(** X14: one tiny script spoils a scrape.  When a session reaches the loop
    and the first captured script has one to three characters, the
    [ZeroDivisionError] of [detect_obfuscation] lands in the generic
    [except] clause: the session returns status Failed with the error
    [division by zero], although the page was rendered; the dict still
    carries the snapshot, the script paths and the redirect value. *)
Theorem short_script_fails_session (w : World) (a : Args) (fuel : nat)
    (url html script_url body : string) (rest : list (string * string)) :
  reaches_content_poll w url html ->
  asyncio_gather w = Ok ((script_url, body) :: rest) ->
  (1 <= String.length body <= 3)%nat ->
  async_playwright_exit w = Ok tt ->
  teardown_quiet w ->
  exists address addresses st,
    resolver_resolve w (urlparse_netloc w (with_scheme url))
    = Answer (address :: addresses)
    /\ scrape_website_async_with w a fuel url
       = Some (Ok {| domain := with_scheme url;
                     status_code := Failed;
                     ip := Some (address :: addresses);
                     obfuscation := false;
                     script_paths :=
                       str_of (map (fun p => urlparse_path w p.1)
                                 ((script_url, body) :: rest));
                     redirect_domain :=
                       is_redirected_to_different_domain w (with_scheme url)
                         (page_url w);
                     html_content := html;
                     error := Some "division by zero" |}, st).
Proof.
  intros Hreach Hgather Hshort Hexit Hquiet.
  pose proof Hreach as ((address & addresses & Hdns) & _).
  destruct (try_body_collects w a fuel url html _ Hreach Hgather Hexit)
    as (sb & Hbody & Hview).
  assert (scan_flag (map snd ((script_url, body) :: rest)) = Raise ZeroDivisionError)
    as Hscan by (cbn; rewrite (short_script_raises body Hshort); reflexivity).
  rewrite Hscan in Hbody, Hview.
  destruct (finalizer_quiet w (Vars.set_proxy_success false sb) Hquiet)
    as (stf & Hfin & _).
  exists address, addresses, stf. split; [exact Hdns|].
  unfold scrape_website_async_with, scrape, emit.
  rewrite bind_modify, bind_call. unfold dns_resolve. rewrite Hdns. cbn [not_ips].
  unfold bind at 1, try_statement, try_finally, try_except.
  unfold bind at 1. rewrite Hbody. cbn [handlers]. rewrite bind_modify, bind_gets.
  cbn [ret id]. rewrite Hfin. cbn [bind ret]. unfold failed_result.
  unfold result_view in Hview. injection Hview as Hobf Hpaths Hred Hhtml _.
  cbn [Vars.has_obfuscation Vars.js_filepaths Vars.redirect_domain Vars.html_content
       Vars.set_proxy_success str_exn].
  rewrite Hobf, Hpaths, Hred, Hhtml, map_map. reflexivity.
Qed.

Lemma short_script_fails_session_witness :
  exists address addresses st,
    resolver_resolve serves_tiny_script
      (urlparse_netloc serves_tiny_script (with_scheme "example.com"))
    = Answer (address :: addresses)
    /\ scrape_website_async_with serves_tiny_script default_args 0 "example.com"
       = Some (Ok {| domain := with_scheme "example.com";
                     status_code := Failed;
                     ip := Some (address :: addresses);
                     obfuscation := false;
                     script_paths :=
                       str_of (map (fun p => urlparse_path serves_tiny_script p.1)
                                 [("https://example.com/js/empty.js", ";")]);
                     redirect_domain :=
                       is_redirected_to_different_domain serves_tiny_script
                         (with_scheme "example.com") (page_url serves_tiny_script);
                     html_content := "<html><body>a</body></html>";
                     error := Some "division by zero" |}, st).
Proof.
  apply (short_script_fails_session serves_tiny_script default_args 0 "example.com"
           "<html><body>a</body></html>" "https://example.com/js/empty.js" ";" []).
  - unfold reaches_content_poll. split; [exists "93.184.216.34", []; reflexivity|].
    repeat split.
  - reflexivity.
  - cbn. lia.
  - reflexivity.
  - unfold teardown_quiet. split; [reflexivity|]. split; [|split; reflexivity].
    intros e He. discriminate.
Defined.

(** *** The scan of the captured scripts *)

Lemma scan_flag_true (script_contents : list string) :
  scan_flag script_contents = Ok true ->
  exists script, script ∈ script_contents /\ detect_obfuscation script = Ok true.
Proof.
  induction script_contents as [|script rest IH]; [discriminate|].
  cbn [scan_flag]. destruct (detect_obfuscation script) as [[|]|e] eqn:Hd;
    [intros _|intros H|discriminate].
  - exists script. split; [apply list_elem_of_here|exact Hd].
  - destruct (IH H) as (s & Hin & Hs). exists s.
    split; [apply list_elem_of_further, Hin|exact Hs].
Qed.

Lemma scan_flag_false (script_contents : list string) :
  scan_flag script_contents = Ok false ->
  forall script, script ∈ script_contents -> detect_obfuscation script = Ok false.
Proof.
  induction script_contents as [|s rest IH]; intros Hscan script Hin;
    [inversion Hin|].
  cbn [scan_flag] in Hscan. destruct (detect_obfuscation s) as [[|]|e] eqn:Hd;
    [discriminate| |discriminate].
  apply elem_of_cons in Hin as [-> | Hin]; [exact Hd|exact (IH Hscan script Hin)].
Qed.

(** X15: the [for] loop over the captured scripts, entered with
    [has_obfuscation] at [False] and left without an exception, sets the
    flag if and only if [detect_obfuscation] is positive on one of the
    scripts; it changes no other variable. *)
Theorem scan_sets_flag_iff_positive (script_contents : list string)
    (st st' : locals) :
  scan_scripts script_contents st = Some (Ok tt, st') ->
  Vars.has_obfuscation st = false ->
  (Vars.has_obfuscation st' = true
   <-> exists script,
         script ∈ script_contents /\ detect_obfuscation script = Ok true)
  /\ (st' = st \/ st' = Vars.set_has_obfuscation true st).
Proof.
  rewrite scan_scripts_run. intros Hrun Hfalse.
  destruct (scan_flag script_contents) as [[|]|e] eqn:Hscan; [| |discriminate].
  - assert (st' = Vars.set_has_obfuscation true st) as -> by congruence.
    split; [|right; reflexivity]. split; [intros _|reflexivity].
    apply scan_flag_true, Hscan.
  - assert (st' = st) as -> by congruence.
    split; [|left; reflexivity]. rewrite Hfalse. split; [discriminate|].
    intros (script & Hin & Hpos).
    rewrite (scan_flag_false _ Hscan script Hin) in Hpos. discriminate.
Qed.

Lemma scan_sets_flag_iff_positive_witness :
  (Vars.has_obfuscation (Vars.set_has_obfuscation true Vars.initial) = true
   <-> exists script,
         script ∈ ["var a = 1;"; six_literals]
         /\ detect_obfuscation script = Ok true)
  /\ (Vars.set_has_obfuscation true Vars.initial = Vars.initial
      \/ Vars.set_has_obfuscation true Vars.initial
         = Vars.set_has_obfuscation true Vars.initial).
Proof.
  apply (scan_sets_flag_iff_positive ["var a = 1;"; six_literals] Vars.initial).
  - vm_compute. reflexivity.
  - reflexivity.
Defined.

(** *** A failing [page.close()] *)

Lemma guarded_body_keeps_closes (w : World) (a : Args) (fuel : nat)
    (url domain : string) (resolved_ip : option (list string)) :
  preserves close_view
    (try_except (try_body w a fuel url ;; ret None)
                (handlers url domain resolved_ip)).
Proof.
  apply preserves_try_except.
  - apply preserves_bind; [|intros _; apply preserves_ret].
    unfold try_body, open_page, navigate, collect_scripts. keeps.
  - apply handlers_preserve. reflexivity.
Qed.

Lemma finalizer_page_close_fails (w : World) (e : exn) (st st' : locals)
    (o : outcome unit) :
  page_close w = Raise e ->
  finalizer w st = Some (o, st') ->
  close_view st = [] ->
  In EvPageClose (close_view st') ->
  o = Raise e /\ ~ In EvBrowserClose (close_view st').
Proof.
  intros Hp. unfold finalizer, teardown. rewrite bind_gets, bind_call.
  destruct st as [ps rd ho jf su sc hc sts br cx pg ui ci ti pc cc tr].
  unfold close_view, close_events.
  cbv [try_except bind gets call emit modify lift ret log]. cbn.
  intros Hrun Hnil.
  destruct (update_load_time w) as [[]|eu]; cbn in Hrun;
    [destruct cx; cbn in Hrun;
     [destruct (context_close w) as [[]|ec]; cbn in Hrun;
      [|destruct (is_Exception ec); cbn in Hrun]|];
     try (destruct pg; cbn in Hrun; rewrite ?Hp in Hrun; cbn in Hrun;
          [|destruct br; cbn in Hrun;
            try (destruct (browser_close w) as [[]|eb]; cbn in Hrun)])|];
    injection Hrun as <- <-; cbn [Vars.trace Vars.set_trace];
    rewrite ?List.filter_app, Hnil; cbn;
    intros Hin; try (split; [reflexivity|]); intuition discriminate.
Qed.

(** A [page.close()] that raises ends the session with its exception,
    before [browser.close()]. *)
Lemma failing_page_close_outcome (w : World) (a : Args) (fuel : nat)
    (url : string) (e : exn) (o : outcome ScrapeResult) (st : locals) :
  page_close w = Raise e ->
  scrape_website_async_with w a fuel url = Some (o, st) ->
  In EvPageClose (Vars.trace st) ->
  o = Raise e /\ ~ In EvBrowserClose (Vars.trace st).
Proof.
  intros Hp Hrun Hin.
  assert (In EvPageClose (close_view st)) as Hin'
    by (apply List.filter_In; split; [exact Hin|reflexivity]).
  assert (o = Raise e /\ ~ In EvBrowserClose (close_view st)) as [Ho Hno].
  { revert Hrun Hin'. clear Hin.
    unfold scrape_website_async_with, scrape, emit.
    rewrite bind_modify, bind_call. unfold dns_resolve.
    destruct (resolver_resolve w _) as [[|address addresses]| | | |er];
      try (cbn; intros H; injection H as <- <-; cbn; intros []).
    cbn [not_ips]. set (st0 := log _ _). unfold bind at 1.
    unfold try_statement, try_finally.
    destruct (guarded_body_keeps_closes w a fuel (with_scheme url)
                (urlparse_netloc w (with_scheme url)) (Some (address :: addresses)) st0)
      as (o1 & s1 & Hguard & Hsame).
    rewrite Hguard.
    destruct (finalizer w s1) as [[o2 s2]|] eqn:Hfin; [|discriminate].
    intros Hrun Hin.
    assert (st = s2) as ->
      by (destruct o2 as [[]|e2]; [destruct o1 as [[r|]|e1]|];
          cbv [bind gets ret id] in Hrun; congruence).
    destruct (finalizer_page_close_fails w e s1 s2 o2 Hp Hfin Hsame Hin) as [-> Hno].
    cbv [bind gets ret id] in Hrun. split; [congruence|exact Hno]. }
  split; [exact Ho|]. intros Hb. apply Hno.
  apply List.filter_In. split; [exact Hb|reflexivity].
Qed.

End SessionOutcomes.

(** ** The dispatcher: what reaches the result topic *)

Section DispatcherOutcomes.

Import Session Dispatcher Samples.

Variable from_scraper_to_parsed_data : ScrapeResult -> outcome (gmap string string).
Variable client_name : string.
Variable producer_send : gmap string string -> outcome unit.

Local Abbreviation task := (process_scrape_task from_scraper_to_parsed_data).
Local Abbreviation dispatch :=
  (process_domain from_scraper_to_parsed_data client_name producer_send).

Lemma publish_cases (o : outcome (option (gmap string string)))
    (sink : list (gmap string string)) :
  publish client_name producer_send o sink
  = match o with
    | Ok (Some d) =>
        if bool_decide (d = ∅) then (Ok tt, sink)
        else
          match producer_send (<["processor" := client_name]> d) with
          | Ok _ => (Ok tt, (sink ++ [<["processor" := client_name]> d])%list)
          | Raise (BaseException msg) => (Raise (BaseException msg), sink)
          | Raise _ => (Ok tt, sink)
          end
    | Ok None => (Ok tt, sink)
    | Raise (BaseException msg) => (Raise (BaseException msg), sink)
    | Raise _ => (Ok tt, sink)
    end.
Proof.
  unfold publish, truthy. destruct o as [[d|]|e]; [| reflexivity |destruct e; reflexivity].
  destruct (bool_decide (d = ∅)); cbn [negb]; [reflexivity|].
  destruct (producer_send _) as [[]|e]; [reflexivity|destruct e; reflexivity].
Qed.

Lemma process_scraped_cases (scraped : outcome ScrapeResult) :
  process_scraped from_scraper_to_parsed_data scraped
  = match scraped with
    | Ok r =>
        if String.eqb (html_content r) "" then Ok None
        else
          match from_scraper_to_parsed_data r with
          | Ok d => Ok (Some d)
          | Raise e => if is_Exception e then Ok None else Raise e
          end
    | Raise e => if is_Exception e then Ok None else Raise e
    end.
Proof.
  unfold process_scraped, swallow. destruct scraped as [r|e]; [|reflexivity].
  destruct (String.eqb _ _); [reflexivity|].
  destruct (from_scraper_to_parsed_data r); reflexivity.
Qed.

(** With the slot held, no [Exception] and no [CancelledError] leaves the
    [try] statement of [process_domain]. *)
Lemma slot_holder_swallows_exceptions (w : World) (fuel : nat) (domain : string)
    (sink sink' : list (gmap string string)) (o : outcome unit) :
  dispatch w fuel domain sink = Some (o, sink') ->
  o = Ok tt \/ (exists msg, o = Raise (BaseException msg)) /\ sink' = sink.
Proof.
  unfold process_domain, process_scrape_task.
  destruct (scrape_website_async w fuel domain) as [[scraped st]|]; [|discriminate].
  rewrite publish_cases, process_scraped_cases. intros H.
  destruct scraped as [r|e].
  - destruct (String.eqb _ _); [injection H as <- <-; left; reflexivity|].
    destruct (from_scraper_to_parsed_data r) as [d|e].
    + destruct (bool_decide (d = ∅)); [injection H as <- <-; left; reflexivity|].
      destruct (producer_send _) as [[]|e]; [injection H as <- <-; left; reflexivity|].
      destruct e; injection H as <- <-; eauto.
    + destruct e; cbn in H; injection H as <- <-; eauto.
  - destruct e; cbn in H; injection H as <- <-; eauto.
Qed.

(** X16: what can leave [process_domain].  Whatever the session, the
    parser and the producer do inside the semaphore block, no [Exception]
    and no [CancelledError] of theirs leaves the coroutine.  It ends
    normally, or with what the wait for the semaphore slot raised (the
    [CancelledError] of a task cancelled while it waits), or with a
    non-[Exception] other than [CancelledError]; in the last two cases
    nothing was published. *)
Theorem only_slot_wait_escapes_process_domain (semaphore_acquire : outcome unit)
    (w : World) (fuel : nat) (domain : string)
    (sink sink' : list (gmap string string)) (o : outcome unit) :
  process_domain_with_semaphore from_scraper_to_parsed_data client_name
    producer_send semaphore_acquire w fuel domain sink = Some (o, sink') ->
  o = Ok tt
  \/ ((exists e, semaphore_acquire = Raise e /\ o = Raise e)
      \/ (exists msg, o = Raise (BaseException msg)))
     /\ sink' = sink.
Proof.
  unfold process_domain_with_semaphore. destruct semaphore_acquire as [[]|e].
  - intros Hrun.
    destruct (slot_holder_swallows_exceptions _ _ _ _ _ _ Hrun) as [Ho | [Hbase Hsink]];
      [left; exact Ho|right; split; [right; exact Hbase|exact Hsink]].
  - intros Hrun. injection Hrun as <- <-. right.
    split; [left; exists e; split; reflexivity|reflexivity].
Qed.

(** X17: what a completed scrape puts on the result topic.  When the
    session returns a dict with non-empty [html_content], the parser turns
    it into a non-empty record and the producer accepts it, exactly one
    record is appended to what was published before: the parsed record
    with [processor] set to the worker's name, replacing any [processor]
    entry the parser may have produced. *)
Theorem completed_scrape_is_sent (w : World) (fuel : nat) (domain : string)
    (r : ScrapeResult) (st : locals) (d : gmap string string)
    (sink : list (gmap string string)) :
  scrape_website_async w fuel domain = Some (Ok r, st) ->
  html_content r <> "" ->
  from_scraper_to_parsed_data r = Ok d ->
  d <> ∅ ->
  producer_send (<["processor" := client_name]> d) = Ok tt ->
  dispatch w fuel domain sink
  = Some (Ok tt, (sink ++ [<["processor" := client_name]> d])%list)
  /\ (<["processor" := client_name]> d) !! "processor" = Some client_name
  /\ forall key, key <> "processor" ->
       (<["processor" := client_name]> d) !! key = d !! key.
Proof.
  intros Hrun Hhtml Hparse Hd Hsend. split; [|split].
  - unfold process_domain, process_scrape_task. rewrite Hrun.
    rewrite publish_cases, process_scraped_cases.
    apply String.eqb_neq in Hhtml. rewrite Hhtml, Hparse.
    rewrite bool_decide_eq_false_2 by exact Hd. rewrite Hsend. reflexivity.
  - apply lookup_insert_eq.
  - intros key Hkey. apply lookup_insert_ne. congruence.
Qed.

(** X18: nothing is published without a page.  Whenever [process_domain]
    leaves the result topic changed, it appended one record, the session
    had returned a dict with non-empty [html_content], the parser had
    returned a non-empty record for it and the producer had accepted that
    record with the worker's name in it.  Records published before are
    never touched. *)
Theorem published_only_with_html (w : World) (fuel : nat) (domain : string)
    (sink sink' : list (gmap string string)) (o : outcome unit) :
  dispatch w fuel domain sink = Some (o, sink') ->
  sink' = sink
  \/ exists r st d,
       scrape_website_async w fuel domain = Some (Ok r, st)
       /\ html_content r <> ""
       /\ from_scraper_to_parsed_data r = Ok d
       /\ d <> ∅
       /\ producer_send (<["processor" := client_name]> d) = Ok tt
       /\ sink' = (sink ++ [<["processor" := client_name]> d])%list.
Proof.
  unfold process_domain, process_scrape_task.
  destruct (scrape_website_async w fuel domain) as [[scraped st]|] eqn:Hrun;
    [|discriminate].
  rewrite publish_cases, process_scraped_cases. intros H.
  destruct scraped as [r|e].
  - destruct (String.eqb _ _) eqn:Hhtml; [injection H as <- <-; left; reflexivity|].
    destruct (from_scraper_to_parsed_data r) as [d|e] eqn:Hparse.
    + destruct (bool_decide_reflect (d = ∅)) as [Hd|Hd];
        [injection H as <- <-; left; reflexivity|].
      destruct (producer_send _) as [[]|e] eqn:Hsend.
      * injection H as <- <-. right. exists r, st, d.
        apply String.eqb_neq in Hhtml. repeat split; assumption.
      * destruct e; injection H as <- <-; left; reflexivity.
    + destruct e; cbn in H; injection H as <- <-; left; reflexivity.
  - destruct e; cbn in H; injection H as <- <-; left; reflexivity.
Qed.

(** X19: a resolver failure that [dns_resolve] does not catch (it catches
    NXDOMAIN, NoAnswer and Timeout only) leaves [scrape_website_async] as
    an exception, before the [try] statement: no result, no proxy
    feedback, no browser.  When it is an [Exception] the dispatcher
    swallows it and publishes nothing. *)
Theorem unexpected_resolver_error_escapes (w : World) (fuel : nat) (domain : string)
    (e : exn) (sink : list (gmap string string)) :
  resolver_resolve w (urlparse_netloc w (with_scheme domain)) = ResolverError e ->
  (exists st,
      scrape_website_async w fuel domain = Some (Raise e, st)
      /\ Vars.trace st
         = [EvGetProxy; EvDnsResolve (urlparse_netloc w (with_scheme domain))])
  /\ (is_Exception e = true ->
      task w fuel domain = Some (Ok None)
      /\ dispatch w fuel domain sink = Some (Ok tt, sink)).
Proof.
  intros Hdns.
  assert (exists st,
             scrape_website_async w fuel domain = Some (Raise e, st)
             /\ Vars.trace st
                = [EvGetProxy; EvDnsResolve (urlparse_netloc w (with_scheme domain))])
    as (st & Hrun & Htrace).
  { unfold scrape_website_async, scrape_website_async_with, scrape, emit.
    rewrite bind_modify, bind_call. unfold dns_resolve. rewrite Hdns.
    eexists. split; reflexivity. }
  split; [exists st; split; assumption|]. intros He.
  unfold process_domain, process_scrape_task. rewrite Hrun.
  rewrite publish_cases, process_scraped_cases, He. split; reflexivity.
Qed.

(** X20: a scrape lost in teardown.  When the session gets as far as
    calling [page.close()] and that call raises an [Exception], the
    exception replaces the session's result, [browser.close()] is not
    attempted, and the dispatcher, which swallows the exception,
    publishes nothing for the domain. *)
Theorem page_close_failure_loses_result (w : World) (fuel : nat) (domain : string)
    (e : exn) (o : outcome ScrapeResult) (st : locals)
    (sink : list (gmap string string)) :
  page_close w = Raise e ->
  is_Exception e = true ->
  scrape_website_async w fuel domain = Some (o, st) ->
  In EvPageClose (Vars.trace st) ->
  o = Raise e
  /\ ~ In EvBrowserClose (Vars.trace st)
  /\ dispatch w fuel domain sink = Some (Ok tt, sink).
Proof.
  intros Hp He Hrun Hin.
  destruct (failing_page_close_outcome _ _ _ _ _ _ _ Hp Hrun Hin) as [-> Hno].
  split; [reflexivity|]. split; [exact Hno|].
  unfold process_domain, process_scrape_task. rewrite Hrun.
  rewrite publish_cases, process_scraped_cases, He. reflexivity.
Qed.

End DispatcherOutcomes.

Lemma only_slot_wait_escapes_process_domain_witness :
  exists o sink',
    Dispatcher.process_domain_with_semaphore Samples.parse_domain "worker-1"
      Samples.send_ok (Raise CancelledError) Samples.calm 0 "example.com" []
    = Some (o, sink')
    /\ (o = Ok tt
        \/ ((exists e, (Raise CancelledError : outcome unit) = Raise e /\ o = Raise e)
            \/ (exists msg, o = Raise (BaseException msg)))
           /\ sink' = []).
Proof.
  eassert (Dispatcher.process_domain_with_semaphore Samples.parse_domain "worker-1"
             Samples.send_ok (Raise CancelledError) Samples.calm 0 "example.com" []
           = Some (_, _)) as Hrun by reflexivity.
  eexists _, _. split; [exact Hrun|].
  exact (only_slot_wait_escapes_process_domain Samples.parse_domain "worker-1"
           Samples.send_ok _ _ _ _ _ _ _ Hrun).
Defined.

(** The same domain with a slot at hand and a parser that fails: the
    exception is swallowed and nothing is published. *)
Example parser_failure_is_swallowed :
  Dispatcher.process_domain_with_semaphore Samples.parse_fails "worker-1"
    Samples.send_ok (Ok tt) Samples.calm 0 "example.com" []
  = Some (Ok tt, []).
Proof. vm_compute. reflexivity. Qed.

Lemma completed_scrape_is_sent_witness :
  exists r st,
    Session.scrape_website_async Samples.calm 0 "example.com" = Some (Ok r, st)
    /\ Dispatcher.process_domain Samples.parse_domain "worker-1" Samples.send_ok
         Samples.calm 0 "example.com" []
       = Some (Ok tt, [<["processor" := "worker-1"]>
                         {["domain" := Session.domain r]}]).
Proof.
  eassert (Session.scrape_website_async Samples.calm 0 "example.com"
           = Some (Ok _, _)) as Hrun by (vm_compute; reflexivity).
  eexists _, _. split; [exact Hrun|].
  refine (proj1 (completed_scrape_is_sent Samples.parse_domain "worker-1"
                   Samples.send_ok _ _ _ _ _ _ [] Hrun _ eq_refl _ eq_refl)).
  - discriminate.
  - intros Hempty. apply (f_equal (fun m => m !! "domain")) in Hempty.
    rewrite lookup_singleton_eq, lookup_empty in Hempty. discriminate.
Defined.

Lemma published_only_with_html_witness :
  exists o sink',
    Dispatcher.process_domain Samples.parse_domain "worker-1" Samples.send_ok
      Samples.unresolvable 0 "nowhere.invalid" []
    = Some (o, sink')
    /\ (sink' = []
        \/ exists r st d,
             Session.scrape_website_async Samples.unresolvable 0 "nowhere.invalid"
             = Some (Ok r, st)
             /\ Session.html_content r <> ""
             /\ Samples.parse_domain r = Ok d
             /\ d <> ∅
             /\ Samples.send_ok (<["processor" := "worker-1"]> d) = Ok tt
             /\ sink' = ([] ++ [<["processor" := "worker-1"]> d])%list).
Proof.
  eassert (Dispatcher.process_domain Samples.parse_domain "worker-1" Samples.send_ok
             Samples.unresolvable 0 "nowhere.invalid" [] = Some (_, _)) as Hrun
    by (vm_compute; reflexivity).
  eexists _, _. split; [exact Hrun|].
  exact (published_only_with_html Samples.parse_domain "worker-1" Samples.send_ok
           _ _ _ _ _ _ Hrun).
Defined.

Lemma unexpected_resolver_error_escapes_witness :
  (exists st,
      Session.scrape_website_async Samples.no_nameservers 0 "example.com"
      = Some (Raise (Exception "All nameservers failed"), st)
      /\ Session.Vars.trace st
         = [Session.EvGetProxy;
            Session.EvDnsResolve
              (Session.urlparse_netloc Samples.no_nameservers
                 (Session.with_scheme "example.com"))])
  /\ (is_Exception (Exception "All nameservers failed") = true ->
      Dispatcher.process_scrape_task Samples.parse_domain Samples.no_nameservers 0
        "example.com" = Some (Ok None)
      /\ Dispatcher.process_domain Samples.parse_domain "worker-1" Samples.send_ok
           Samples.no_nameservers 0 "example.com" []
         = Some (Ok tt, [])).
Proof.
  apply (unexpected_resolver_error_escapes Samples.parse_domain "worker-1"
           Samples.send_ok Samples.no_nameservers 0 "example.com"
           (Exception "All nameservers failed") []).
  reflexivity.
Defined.

Lemma page_close_failure_loses_result_witness :
  exists o st,
    Session.scrape_website_async Samples.page_close_fails 0 "example.com"
    = Some (o, st)
    /\ o = Raise (Exception "Page.close: Connection closed")
    /\ ~ In Session.EvBrowserClose (Session.Vars.trace st)
    /\ Dispatcher.process_domain Samples.parse_domain "worker-1" Samples.send_ok
         Samples.page_close_fails 0 "example.com" []
       = Some (Ok tt, []).
Proof.
  eassert (Session.scrape_website_async Samples.page_close_fails 0 "example.com"
           = Some (_, _)) as Hrun by (vm_compute; reflexivity).
  eexists _, _. split; [exact Hrun|].
  apply (page_close_failure_loses_result Samples.parse_domain "worker-1"
           Samples.send_ok Samples.page_close_fails 0 "example.com"
           (Exception "Page.close: Connection closed") _ _ [] eq_refl eq_refl Hrun).
  cbn. repeat (first [left; reflexivity | right]).
Defined.
